(** * med4u: dose scheduling, card classification, notification engine, adherence log

  A shallow embedding of the scheduling logic of the medication reminder
  (App.tsx, MedicineCard, MedicineForm, NotificationAlert), followed by the
  properties established about it.

  Conventions of the embedding.
  - JavaScript strings are [string]; arrays are [list]; [push] appends.
  - A JavaScript number is an [option Z]: [Some z] is the integer [z] and
    [None] is NaN.  The numbers of this program are hours, minutes and
    millisecond stamps, all far inside the range in which JavaScript
    arithmetic on integers is exact.
  - [Number] is modelled on the text a time field holds: an unsigned decimal
    numeral (and the empty string, which JavaScript reads as 0).  Every other
    spelling is read as NaN; JavaScript itself also accepts signs, fractions,
    exponents, hexadecimal and surrounding blanks, none of which the form's
    time input produces.
  - A [Date] is one sample of the clock: the local calendar and wall-clock
    fields and the UTC calendar fields.  Millisecond stamps are counted
    from the local midnight of the sample's day, on a day without a
    daylight-saving shift.
  - React state is passed explicitly; a handler is a function from the state
    it closes over to the next state (and the effects it performs). *)

From Stdlib Require Import ZArith List String Ascii Bool Lia.
From Stdlib Require Import Permutation Sorted QArith.
Import ListNotations.

Local Open Scope string_scope.
Local Open Scope list_scope.
Local Open Scope Z_scope.

(* ------------------------------------------------------------------ *)
(** ** The JavaScript primitives the program uses *)

Module JS.

(** [s.split(sep)] for a one-character separator. *)
Fixpoint split (sep : ascii) (s : string) : list string :=
  match s with
  | EmptyString => [EmptyString]
  | String c rest =>
      if Ascii.eqb c sep then EmptyString :: split sep rest
      else match split sep rest with
           | [] => [String c EmptyString]
           | part :: parts => String c part :: parts
           end
  end.

Definition digit (c : ascii) : option Z :=
  let n := Z.of_N (N_of_ascii c) in
  if (48 <=? n) && (n <=? 57) then Some (n - 48) else None.

Fixpoint numeral (acc : Z) (s : string) : option Z :=
  match s with
  | EmptyString => Some acc
  | String c rest =>
      match digit c with
      | Some d => numeral (acc * 10 + d) rest
      | None => None
      end
  end.

(** [Number(s)]. *)
Definition Number (s : string) : option Z := numeral 0 s.

(** Arithmetic and comparisons; NaN is contagious in arithmetic and makes
    every comparison false. *)
Definition mul (a b : option Z) : option Z :=
  match a, b with Some x, Some y => Some (x * y) | _, _ => None end.
Definition add (a b : option Z) : option Z :=
  match a, b with Some x, Some y => Some (x + y) | _, _ => None end.
Definition sub (a b : option Z) : option Z :=
  match a, b with Some x, Some y => Some (x - y) | _, _ => None end.
Definition abs (a : option Z) : option Z := option_map Z.abs a.
Definition gt (a b : option Z) : bool :=
  match a, b with Some x, Some y => x >? y | _, _ => false end.
Definition le (a b : option Z) : bool :=
  match a, b with Some x, Some y => x <=? y | _, _ => false end.

(** [arr[i]] read as a number: a missing element is [undefined], which is
    NaN in arithmetic. *)
Definition at_number (arr : list (option Z)) (i : nat) : option Z :=
  match nth_error arr i with Some v => v | None => None end.

(** [arr.includes(x)] on an array of strings. *)
Definition includes (arr : list string) (x : string) : bool :=
  existsb (String.eqb x) arr.

(** [arr.find(p)]. *)
Definition find {A} (p : A -> bool) (arr : list A) : option A := List.find p arr.

(** [arr.slice(0, n)]. *)
Definition slice0 {A} (n : nat) (arr : list A) : list A := firstn n arr.

(** Two-digit and four-digit zero-padded decimal rendering. *)
Definition digit_char (d : Z) : ascii := ascii_of_N (Z.to_N (48 + d mod 10)).
Definition pad2 (n : Z) : string :=
  String (digit_char (n / 10)) (String (digit_char n) EmptyString).
Definition pad4 (n : Z) : string :=
  String.append (pad2 (n / 100)) (pad2 (n mod 100)).

End JS.

(* ------------------------------------------------------------------ *)
(** ** Data model *)

Module Medicine.
Record t := mk {
  id : string;
  name : string;
  dosage : string;
  frequency : string;
  times : list string;
  startDate : string;
  endDate : option string;
  notes : option string;
  color : string
}.
End Medicine.

Module MedicineLog.
Record t := mk {
  medicineId : string;
  medicineName : string;
  time : string;
  takenAt : string;
  date : string
}.
End MedicineLog.

(** One sample of [new Date()]. *)
Module Date.
Record t := mk {
  getFullYear : Z;
  getMonth : Z;          (* 0 .. 11 *)
  getDate : Z;
  getHours : Z;
  getMinutes : Z;
  getSeconds : Z;
  getMilliseconds : Z;
  getUTCFullYear : Z;
  getUTCMonth : Z;       (* 0 .. 11 *)
  getUTCDate : Z
}.

(** [getTime()], counted from the local midnight of the sample's day. *)
Definition getTime (d : t) : Z :=
  ((getHours d * 60 + getMinutes d) * 60 + getSeconds d) * 1000
  + getMilliseconds d.

(** The stamp of a date after [setHours(hours, minutes, 0, 0)], counted from
    the same midnight; NaN arguments give an invalid date. *)
Definition setHours (hours minutes : option Z) : option Z :=
  JS.add (JS.mul hours (Some 3600000)) (JS.mul minutes (Some 60000)).

(** [toTimeString().slice(0, 5)]: local [HH:MM]. *)
Definition toTimeString5 (d : t) : string :=
  (JS.pad2 (getHours d) ++ ":" ++ JS.pad2 (getMinutes d))%string.

(** [toISOString().split('T')[0]]: the UTC calendar date [YYYY-MM-DD]. *)
Definition toISODate (d : t) : string :=
  (JS.pad4 (getUTCFullYear d) ++ "-" ++ JS.pad2 (getUTCMonth d + 1)
   ++ "-" ++ JS.pad2 (getUTCDate d))%string.

End Date.

(** [const [hours, minutes] = time.split(':').map(Number)]. *)
Definition parseTime (time : string) : option Z * option Z :=
  let parts := map JS.Number (JS.split ":" time) in
  (JS.at_number parts 0, JS.at_number parts 1).

(** [hours * 60 + minutes]. *)
Definition medicineMinutes (time : string) : option Z :=
  let '(hours, minutes) := parseTime time in
  JS.add (JS.mul hours (Some 60)) minutes.

(** [now.getHours() * 60 + now.getMinutes()]. *)
Definition currentMinutes (now : Date.t) : Z :=
  Date.getHours now * 60 + Date.getMinutes now.

(** [medicine.frequency === 'as-needed']. *)
Definition as_needed (medicine : Medicine.t) : bool :=
  String.eqb (Medicine.frequency medicine) "as-needed".

(* ------------------------------------------------------------------ *)
(** ** App.tsx: the dose projector, the collections and the log *)

Module Upcoming.
Record t := mk {
  medicine : Medicine.t;
  time : string;
  minutesUntil : Z
}.
End Upcoming.

(** [arr.sort((a, b) => a.minutesUntil - b.minutesUntil)].  The language
    specifies the sort as stable; with this comparator the result is the one
    stable ascending rearrangement of the array ([stableSorted_unique] below),
    which insertion computes. *)
Fixpoint insertByMinutesUntil (x : Upcoming.t) (l : list Upcoming.t)
  : list Upcoming.t :=
  match l with
  | [] => [x]
  | y :: rest =>
      if Upcoming.minutesUntil x <=? Upcoming.minutesUntil y
      then x :: y :: rest
      else y :: insertByMinutesUntil x rest
  end.

Fixpoint sortByMinutesUntil (l : list Upcoming.t) : list Upcoming.t :=
  match l with
  | [] => []
  | x :: rest => insertByMinutesUntil x (sortByMinutesUntil rest)
  end.

(** Body of the inner loop of [getUpcomingMedicines]: one [time] of one
    [medicine]. *)
Definition pushUpcoming (cur : Z) (medicine : Medicine.t)
           (upcoming : list Upcoming.t) (time : string) : list Upcoming.t :=
  let mm := medicineMinutes time in
  if JS.gt mm (Some cur) then
    match JS.sub mm (Some cur) with
    | Some until => upcoming ++ [Upcoming.mk medicine time until]
    | None => upcoming
    end
  else upcoming.

(** Body of the outer loop: one [medicine]. *)
Definition pushMedicine (cur : Z) (upcoming : list Upcoming.t)
           (medicine : Medicine.t) : list Upcoming.t :=
  if as_needed medicine then upcoming
  else fold_left (pushUpcoming cur medicine) (Medicine.times medicine) upcoming.

(** The array [upcoming] when the loops end. *)
Definition collectUpcoming (medicines : list Medicine.t) (now : Date.t)
  : list Upcoming.t :=
  fold_left (pushMedicine (currentMinutes now)) medicines [].

Definition getUpcomingMedicines (medicines : list Medicine.t) (now : Date.t)
  : list Upcoming.t :=
  JS.slice0 3 (sortByMinutesUntil (collectUpcoming medicines now)).

(** [handleDeleteMedicine], [handleTakeMedicine], [getTodaysLog]. *)
Module App.
Record t := mk {
  medicines : list Medicine.t;
  medicineLog : list MedicineLog.t
}.

Definition handleAddMedicine (medicine : Medicine.t) (app : t) : t :=
  mk (medicines app ++ [medicine]) (medicineLog app).

Definition handleDeleteMedicine (id : string) (app : t) : t :=
  mk (filter (fun med => negb (String.eqb (Medicine.id med) id)) (medicines app))
     (medicineLog app).

Definition handleTakeMedicine (now : Date.t) (medicineId time : string)
           (app : t) : t :=
  match JS.find (fun med => String.eqb (Medicine.id med) medicineId) (medicines app) with
  | Some medicine =>
      let logEntry :=
        MedicineLog.mk medicineId (Medicine.name medicine) time
                       (Date.toTimeString5 now) (Date.toISODate now) in
      mk (medicines app) (medicineLog app ++ [logEntry])
  | None => app
  end.

Definition getTodaysLog (now : Date.t) (app : t) : list MedicineLog.t :=
  let today := Date.toISODate now in
  filter (fun log => String.eqb (MedicineLog.date log) today) (medicineLog app).
End App.

(* ------------------------------------------------------------------ *)
(** ** MedicineCard: next dose and the per-slot classification *)

Module MedicineCard.

(** The [for ... of] loop of [getNextDose]: the first time, in array order,
    whose minute of day is after [cur]. *)
Fixpoint firstAfter (cur : Z) (times : list string) : option string :=
  match times with
  | [] => None
  | time :: rest =>
      if JS.gt (medicineMinutes time) (Some cur) then Some time
      else firstAfter cur rest
  end.

(** [getNextDose]; [None] stands for [null] and for [undefined]. *)
Definition getNextDose (medicine : Medicine.t) (now : Date.t) : option string :=
  if as_needed medicine then None
  else
    match firstAfter (currentMinutes now) (Medicine.times medicine) with
    | Some time => Some time
    | None => nth_error (Medicine.times medicine) 0
    end.

(** [medicineTime.getTime()] after [setHours(hours, minutes, 0, 0)]. *)
Definition medicineTime (time : string) : option Z :=
  let '(hours, minutes) := parseTime time in
  Date.setHours hours minutes.

(** [Math.abs(now.getTime() - medicineTime.getTime()) / (1000 * 60)], as an
    exact quotient.  The dividend is a whole number of milliseconds, so the
    rounded quotient is at most 15 exactly when the exact one is. *)
Definition diffMinutes (now : Date.t) (time : string) : option Q :=
  match JS.abs (JS.sub (Some (Date.getTime now)) (medicineTime time)) with
  | Some d => Some (inject_Z d / inject_Z (1000 * 60))%Q
  | None => None
  end.

Definition isDueNow (now : Date.t) (time : string) : bool :=
  match diffMinutes now time with
  | Some q => Qle_bool q (inject_Z 15)
  | None => false
  end.

Definition isOverdue (now : Date.t) (takenTimes : list string) (time : string)
  : bool :=
  JS.gt (Some (Date.getTime now)) (medicineTime time)
  && negb (JS.includes takenTimes time).

(** What one row of "Today's Schedule" shows. *)
Inductive Border := BorderPrimary | BorderDestructive | BorderPlain.
Inductive Icon := CheckCircle | AlertCircle | ClockIcon.
Inductive Variant := VariantDefault | VariantOutline.

Record Row := mkRow {
  time : string;
  border : Border;
  icon : Icon;
  lineThrough : bool;
  dueNowBadge : bool;
  overdueBadge : bool;
  takeButton : option Variant
}.

Definition renderRow (now : Date.t) (takenTimes : list string) (time : string)
  : Row :=
  let isTaken := JS.includes takenTimes time in
  let isDue := isDueNow now time in
  let overdue := isOverdue now takenTimes time in
  mkRow time
        (if isDue then BorderPrimary
         else if overdue then BorderDestructive else BorderPlain)
        (if isTaken then CheckCircle
         else if overdue then AlertCircle else ClockIcon)
        isTaken
        (isDue && negb isTaken)
        (overdue && negb isTaken)
        (if negb isTaken
         then Some (if isDue then VariantDefault else VariantOutline)
         else None).

(** The rows of the card; an as-needed medicine has none. *)
Definition schedule (medicine : Medicine.t) (now : Date.t)
           (takenTimes : list string) : list Row :=
  if negb (as_needed medicine) && (0 <? Z.of_nat (List.length (Medicine.times medicine)))
  then map (renderRow now takenTimes) (Medicine.times medicine)
  else [].

(** The card's own part of [handleTakeMedicine]: the new [takenTimes].  The
    call [onTakeMedicine(medicine.id, time)] is wired in [Session]. *)
Definition handleTakeMedicine (time : string) (takenTimes : list string)
  : list string :=
  takenTimes ++ [time].

End MedicineCard.

(* ------------------------------------------------------------------ *)
(** ** MedicineForm: building a medicine *)

Module MedicineForm.

Record FormData := mkFormData {
  name : string;
  dosage : string;
  frequency : string;
  startDate : string;
  endDate : string;
  notes : string
}.

Record t := mk {
  formData : FormData;
  times : list string;
  selectedColor : string
}.

(** [!s] on a string. *)
Definition falsy (s : string) : bool := String.eqb s "".

(** [s || undefined]. *)
Definition orUndefined (s : string) : option string :=
  if falsy s then None else Some s.

(** [handleSubmit]; [dateNow] is [Date.now().toString()].  [None] is the early
    return after [toast.error]. *)
Definition handleSubmit (dateNow : string) (form : t) : option Medicine.t :=
  let fd := formData form in
  if falsy (name fd) || falsy (dosage fd) || falsy (frequency fd) then None
  else if negb (String.eqb (frequency fd) "as-needed")
          && existsb falsy (times form) then None
  else
    Some (Medicine.mk dateNow (name fd) (dosage fd) (frequency fd)
                      (if String.eqb (frequency fd) "as-needed" then []
                       else times form)
                      (startDate fd) (orUndefined (endDate fd))
                      (orUndefined (notes fd)) (selectedColor form)).

End MedicineForm.

(* ------------------------------------------------------------------ *)
(** ** NotificationAlert: the notification engine *)

Module DueNotification.
Record t := mk {
  medicine : Medicine.t;
  time : string;
  id : string
}.
End DueNotification.

Module NotificationAlert.

Record t := mk {
  dueNotifications : list DueNotification.t;
  dismissedNotifications : list string;
  soundEnabled : bool;
  hasPlayedSound : list string
}.

(** The initial [useState] values. *)
Definition initial : t := mk [] [] true [].

(** What a handler does besides updating the component's state. *)
Inductive Effect :=
| PlayAlarmSound
| PlaySuccessSound
| Vibrate (pattern : list Z)
| OnTakeMedicine (id time : string)
| OnDismiss (id time : string).

Definition isPlayAlarm (e : Effect) : bool :=
  match e with PlayAlarmSound => true | _ => false end.

(** Number of [playAlarmSound()] calls among the effects. *)
Definition alarms (fx : list Effect) : nat := List.length (filter isPlayAlarm fx).

(** [`${medicine.id}-${time}`]. *)
Definition notificationId (medicine : Medicine.t) (time : string) : string :=
  (Medicine.id medicine ++ "-" ++ time)%string.

(** Body of the inner [forEach]. *)
Definition pushDue (cur : Z) (dismissed : list string) (medicine : Medicine.t)
           (acc : list DueNotification.t) (time : string)
  : list DueNotification.t :=
  let timeDiff := JS.abs (JS.sub (Some cur) (medicineMinutes time)) in
  if JS.le timeDiff (Some 5) then
    let id := notificationId medicine time in
    if negb (JS.includes dismissed id)
    then acc ++ [DueNotification.mk medicine time id]
    else acc
  else acc.

(** Body of the outer [forEach]. *)
Definition pushDueMedicine (cur : Z) (dismissed : list string)
           (acc : list DueNotification.t) (medicine : Medicine.t)
  : list DueNotification.t :=
  if as_needed medicine then acc
  else fold_left (pushDue cur dismissed medicine) (Medicine.times medicine) acc.

(** [newDueNotifications] when the loops end. *)
Definition newDueNotifications (medicines : list Medicine.t) (now : Date.t)
           (dismissed : list string) : list DueNotification.t :=
  fold_left (pushDueMedicine (currentMinutes now) dismissed) medicines [].

(** One evaluation of [checkForDueMedicines]. *)
Definition checkForDueMedicines (medicines : list Medicine.t) (now : Date.t)
           (st : t) : t * list Effect :=
  let due := newDueNotifications medicines now (dismissedNotifications st) in
  let newNotificationIds := map DueNotification.id due in
  let hasNewNotifications :=
    existsb (fun id => negb (JS.includes (hasPlayedSound st) id))
            newNotificationIds in
  if soundEnabled st && (0 <? Z.of_nat (List.length due)) && hasNewNotifications
  then (mk due (dismissedNotifications st) (soundEnabled st)
           (hasPlayedSound st ++ newNotificationIds),
        [PlayAlarmSound])
  else (mk due (dismissedNotifications st) (soundEnabled st)
           (hasPlayedSound st),
        []).

(** [canVibrate] is ['vibrate' in navigator]. *)
Definition handleTakeMedicine (canVibrate : bool)
           (notification : DueNotification.t) (st : t) : t * list Effect :=
  (mk (dueNotifications st)
      (dismissedNotifications st ++ [DueNotification.id notification])
      (soundEnabled st) (hasPlayedSound st),
   [OnTakeMedicine (Medicine.id (DueNotification.medicine notification))
                   (DueNotification.time notification)]
   ++ (if soundEnabled st then [PlaySuccessSound] else [])
   ++ (if canVibrate then [Vibrate [100; 50; 100]] else [])).

Definition handleDismiss (notification : DueNotification.t) (st : t)
  : t * list Effect :=
  (mk (dueNotifications st)
      (dismissedNotifications st ++ [DueNotification.id notification])
      (soundEnabled st) (hasPlayedSound st),
   [OnDismiss (Medicine.id (DueNotification.medicine notification))
              (DueNotification.time notification)]).

Definition handlePlayAlarmSound (canVibrate : bool) (st : t) : t * list Effect :=
  (st,
   (if soundEnabled st then [PlayAlarmSound] else [])
   ++ (if canVibrate then [Vibrate [200; 100; 200; 100; 200]] else [])).

(** [setSoundEnabled(!soundEnabled)]. *)
Definition toggleSound (st : t) : t * list Effect :=
  (mk (dueNotifications st) (dismissedNotifications st)
      (negb (soundEnabled st)) (hasPlayedSound st),
   []).

(** What can happen to the component while it is mounted: an evaluation of
    the effect (on the timer, or because an input changed) with the
    [medicines] it then receives, or one of the buttons. *)
Inductive Event :=
| Tick (medicines : list Medicine.t) (now : Date.t)
| Take (notification : DueNotification.t)
| Dismiss (notification : DueNotification.t)
| ToggleSound
| PlayAlarmButton.

Definition step (canVibrate : bool) (st : t) (ev : Event) : t * list Effect :=
  match ev with
  | Tick medicines now => checkForDueMedicines medicines now st
  | Take notification => handleTakeMedicine canVibrate notification st
  | Dismiss notification => handleDismiss notification st
  | ToggleSound => toggleSound st
  | PlayAlarmButton => handlePlayAlarmSound canVibrate st
  end.

(** The life of one mounted instance of the component: for every event in
    turn, the state it found, the event and the effects it had.  When App
    shows the add-medicine page the component is unmounted; the instance
    mounted afterwards starts again from [initial] ([Session.step]). *)
Fixpoint run (canVibrate : bool) (st : t) (evs : list Event)
  : list (t * Event * list Effect) :=
  match evs with
  | [] => []
  | ev :: rest =>
      let '(st', fx) := step canVibrate st ev in
      (st, ev, fx) :: run canVibrate st' rest
  end.

End NotificationAlert.

(* ------------------------------------------------------------------ *)
(** ** The components wired together as App.tsx mounts them *)

Module Session.

(** The state of the main page: the App's collections, the [takenTimes] of
    each mounted card (cards are keyed by [medicine.id]) and the alert. *)
Record t := mk {
  app : App.t;
  takenTimes : string -> list string;
  alert : NotificationAlert.t
}.

Definition initial : t :=
  mk (App.mk [] []) (fun _ => []) NotificationAlert.initial.

Definition setTakenTimes (key : string) (v : list string)
           (cards : string -> list string) : string -> list string :=
  fun k => if String.eqb k key then v else cards k.

(** The props [onTakeMedicine={handleTakeMedicine}] and
    [onDismiss={handleDismissNotification}]; the latter only logs. *)
Definition callback (now : Date.t) (app : App.t)
           (e : NotificationAlert.Effect) : App.t :=
  match e with
  | NotificationAlert.OnTakeMedicine id time =>
      App.handleTakeMedicine now id time app
  | _ => app
  end.

(** [AddMedicine] and [VisitForm] are visits of the add-medicine page, ended
    by a submit and by Cancel or the back arrow.  While [showForm] is true
    App renders that page alone, without cards and without the alert, so a
    visit unmounts them; they mount again with their initial state. *)
Inductive Event :=
| AddMedicine (medicine : Medicine.t)
| VisitForm
| DeleteMedicine (id : string)
| CardTake (id time : string) (now : Date.t)
| Tick (now : Date.t)
| AlertTake (notification : DueNotification.t) (now : Date.t)
| AlertDismiss (notification : DueNotification.t)
| ToggleSound
| PlayAlarmButton.

Definition alertStep (canVibrate : bool) (now : Date.t)
           (ev : NotificationAlert.Event) (s : t) : t :=
  let '(alert', fx) := NotificationAlert.step canVibrate (alert s) ev in
  mk (fold_left (callback now) fx (app s)) (takenTimes s) alert'.

Definition step (canVibrate : bool) (s : t) (ev : Event) : t :=
  match ev with
  | AddMedicine medicine =>
      mk (App.handleAddMedicine medicine (app s)) (fun _ => [])
         NotificationAlert.initial
  | VisitForm => mk (app s) (fun _ => []) NotificationAlert.initial
  | DeleteMedicine id =>
      (* the card of the deleted medicine is unmounted with its state *)
      mk (App.handleDeleteMedicine id (app s))
         (setTakenTimes id [] (takenTimes s)) (alert s)
  | CardTake id time now =>
      (* the Take button of the card mounted for [id], if there is one *)
      match JS.find (fun m => String.eqb (Medicine.id m) id)
                    (App.medicines (app s)) with
      | Some medicine =>
          mk (App.handleTakeMedicine now (Medicine.id medicine) time (app s))
             (setTakenTimes id
                (MedicineCard.handleTakeMedicine time (takenTimes s id))
                (takenTimes s))
             (alert s)
      | None => s
      end
  | Tick now =>
      alertStep canVibrate now
                (NotificationAlert.Tick (App.medicines (app s)) now) s
  | AlertTake notification now =>
      alertStep canVibrate now (NotificationAlert.Take notification) s
  | AlertDismiss notification =>
      mk (app s) (takenTimes s)
         (fst (NotificationAlert.handleDismiss notification (alert s)))
  | ToggleSound =>
      mk (app s) (takenTimes s) (fst (NotificationAlert.toggleSound (alert s)))
  | PlayAlarmButton => s
  end.

Definition run (canVibrate : bool) (s : t) (evs : list Event) : t :=
  fold_left (step canVibrate) evs s.

(** The rows the card of [medicine] shows at [now]. *)
Definition cardRows (s : t) (medicine : Medicine.t) (now : Date.t)
  : list MedicineCard.Row :=
  MedicineCard.schedule medicine now (takenTimes s (Medicine.id medicine)).

End Session.

(* ------------------------------------------------------------------ *)
(** ** Notions used to state the properties *)

(** The entry a slot contributes to the projection at minute [cur]: one entry
    when its minute of day is after [cur], none otherwise. *)
Definition slotEntry (cur : Z) (medicine : Medicine.t) (time : string)
  : list Upcoming.t :=
  match medicineMinutes time with
  | Some mm => if mm >? cur then [Upcoming.mk medicine time (mm - cur)] else []
  | None => []
  end.

(** All entries, medicine by medicine and slot by slot, in insertion order. *)
Definition candidates (medicines : list Medicine.t) (now : Date.t)
  : list Upcoming.t :=
  flat_map (fun medicine =>
              if as_needed medicine then []
              else flat_map (slotEntry (currentMinutes now) medicine)
                            (Medicine.times medicine))
           medicines.

Definition leMinutes (a b : Upcoming.t) : Prop :=
  Upcoming.minutesUntil a <= Upcoming.minutesUntil b.

(** The entries of [l] whose [minutesUntil] is [k], in the order of [l]. *)
Definition withMinutes (k : Z) (l : list Upcoming.t) : list Upcoming.t :=
  filter (fun e => Upcoming.minutesUntil e =? k) l.

(** [out] is the stable ascending rearrangement of [inp]. *)
Definition stableSorted (inp out : list Upcoming.t) : Prop :=
  Permutation out inp /\ StronglySorted leMinutes out /\
  forall k, withMinutes k out = withMinutes k inp.

(** The slot candidates the notification engine looks at: the same pairs,
    with the 5-minute test on minutes of day. *)
Definition dueSlot (cur : Z) (dismissed : list string) (medicine : Medicine.t)
           (time : string) : Prop :=
  as_needed medicine = false /\ In time (Medicine.times medicine) /\
  (exists mm, medicineMinutes time = Some mm /\ Z.abs (cur - mm) <= 5) /\
  ~ In (NotificationAlert.notificationId medicine time) dismissed.

(** What one slot contributes to the due set. *)
Definition dueEntry (cur : Z) (dismissed : list string) (medicine : Medicine.t)
           (time : string) : list DueNotification.t :=
  NotificationAlert.pushDue cur dismissed medicine [] time.

(** The ids of the notifications on display. *)
Definition dueIds (st : NotificationAlert.t) : list string :=
  map DueNotification.id (NotificationAlert.dueNotifications st).

(** Values used in the examples. *)
Definition clock (h m s : Z) : Date.t :=
  Date.mk 2025 0 15 h m s 0 2025 0 15.

Definition med (id name frequency : string) (times : list string) : Medicine.t :=
  Medicine.mk id name "10mg" frequency times "2025-01-01" None None "#ef4444".

Definition M1 : Medicine.t := med "1" "M" "twice-daily" ["08:00"; "20:00"].
Definition M4 : Medicine.t :=
  med "4" "Q" "four-times-daily" ["08:00"; "12:00"; "16:00"; "20:00"].
Definition Munsorted : Medicine.t := med "7" "U" "twice-daily" ["20:00"; "08:00"].

(** The form as filled in for a twice-daily medicine, evening time first. *)
Definition formUnsorted : MedicineForm.t :=
  MedicineForm.mk
    (MedicineForm.mkFormData "U" "10mg" "twice-daily" "2025-01-01" "" "")
    ["20:00"; "08:00"] "#ef4444".

Definition notification0800 : DueNotification.t :=
  DueNotification.mk M1 "08:00" "1-08:00".


(** [M1] is added; the engine evaluates at 08:05 and shows the 08:00 dose; it
    is marked as taken on the notification; the engine evaluates again. *)
Definition sessionTakenOnAlert : Session.t :=
  Session.run true Session.initial
    [Session.AddMedicine M1;
     Session.Tick (clock 8 5 0);
     Session.AlertTake notification0800 (clock 8 5 0);
     Session.Tick (clock 8 5 0)].

(** [M1] is added; the engine evaluates at 08:00, shows the 08:00 dose and
    plays the alarm for it. *)
Definition sessionAlarmPlayed : Session.t :=
  Session.run true Session.initial
    [Session.AddMedicine M1; Session.Tick (clock 8 0 0)].

(** The add-medicine page is then opened and left again. *)
Definition sessionAfterForm : Session.t :=
  Session.step true sessionAlarmPlayed Session.VisitForm.



(** What a row tells about its slot: time, struck through as taken, "Due Now"
    badge, "Overdue" badge. *)
Definition report (row : MedicineCard.Row) : string * bool * bool * bool :=
  (MedicineCard.time row, MedicineCard.lineThrough row,
   MedicineCard.dueNowBadge row, MedicineCard.overdueBadge row).

(* ------------------------------------------------------------------ *)
(** ** Header and MobileHeader: doses in the next two hours *)

Module Header.

(** Body of the inner [forEach] of [getUpcomingDoses]. *)
Definition countTime (cur : Z) (upcomingCount : Z) (time : string) : Z :=
  let mm := medicineMinutes time in
  if JS.gt mm (Some cur) && JS.le mm (Some (cur + 120))
  then upcomingCount + 1 else upcomingCount.

(** Body of the outer [forEach]. *)
Definition countMedicine (cur : Z) (upcomingCount : Z) (medicine : Medicine.t)
  : Z :=
  if as_needed medicine then upcomingCount
  else fold_left (countTime cur) (Medicine.times medicine) upcomingCount.

Definition getUpcomingDoses (medicines : list Medicine.t) (now : Date.t) : Z :=
  fold_left (countMedicine (currentMinutes now)) medicines 0.

End Header.

Module MobileHeader.

(** Body of the inner [forEach] of [getUpcomingCount]. *)
Definition countTime (cur : Z) (count : Z) (time : string) : Z :=
  let mm := medicineMinutes time in
  if JS.gt mm (Some cur) && JS.le mm (Some (cur + 120))
  then count + 1 else count.

Definition countMedicine (cur : Z) (count : Z) (medicine : Medicine.t) : Z :=
  if as_needed medicine then count
  else fold_left (countTime cur) (Medicine.times medicine) count.

Definition getUpcomingCount (medicines : list Medicine.t) (now : Date.t) : Z :=
  fold_left (countMedicine (currentMinutes now)) medicines 0.

End MobileHeader.

(* ------------------------------------------------------------------ *)
(** ** MedicineForm: choosing the frequency and filling in the times *)

Module FrequencyOption.
Record t := mk {
  value : string;
  label : string;
  times : Z
}.
End FrequencyOption.

Module MedicineFormInput.

Definition frequencyOptions : list FrequencyOption.t :=
  [ FrequencyOption.mk "once-daily" "Once Daily" 1;
    FrequencyOption.mk "twice-daily" "Twice Daily" 2;
    FrequencyOption.mk "three-times-daily" "Three Times Daily" 3;
    FrequencyOption.mk "four-times-daily" "Four Times Daily" 4;
    FrequencyOption.mk "as-needed" "As Needed" 0 ].

(** [{ ...prev, frequency }]. *)
Definition setFrequency (frequency : string) (fd : MedicineForm.FormData)
  : MedicineForm.FormData :=
  MedicineForm.mkFormData (MedicineForm.name fd) (MedicineForm.dosage fd)
                          frequency (MedicineForm.startDate fd)
                          (MedicineForm.endDate fd) (MedicineForm.notes fd).

(** [handleFrequencyChange]: the frequency is stored and the time fields are
    reset, [Array(option.times).fill('')] for an option with times, [['']]
    otherwise. *)
Definition handleFrequencyChange (frequency : string) (form : MedicineForm.t)
  : MedicineForm.t :=
  let fd := setFrequency frequency (MedicineForm.formData form) in
  match JS.find (fun opt => String.eqb (FrequencyOption.value opt) frequency)
                frequencyOptions with
  | Some option =>
      if FrequencyOption.times option >? 0
      then MedicineForm.mk fd (repeat "" (Z.to_nat (FrequencyOption.times option)))
                           (MedicineForm.selectedColor form)
      else MedicineForm.mk fd [""] (MedicineForm.selectedColor form)
  | None => MedicineForm.mk fd [""] (MedicineForm.selectedColor form)
  end.

(** [newTimes[index] = time] at an index the array has.  [None] at an index
    beyond the array: the assignment would then make a sparse array, which a
    list of strings does not represent; the form attaches the handler only to
    the inputs [times.map] renders, whose indices the array has. *)
Fixpoint assign (index : nat) (time : string) (times : list string)
  : option (list string) :=
  match times, index with
  | [], _ => None
  | _ :: rest, O => Some (time :: rest)
  | t :: rest, S i => option_map (cons t) (assign i time rest)
  end.

Definition handleTimeChange (index : nat) (time : string) (form : MedicineForm.t)
  : option MedicineForm.t :=
  option_map (fun newTimes =>
                MedicineForm.mk (MedicineForm.formData form) newTimes
                                (MedicineForm.selectedColor form))
             (assign index time (MedicineForm.times form)).

(** The time inputs are shown when a frequency other than as-needed is
    chosen. *)
Definition showsTimes (form : MedicineForm.t) : bool :=
  negb (MedicineForm.falsy (MedicineForm.frequency (MedicineForm.formData form)))
  && negb (String.eqb (MedicineForm.frequency (MedicineForm.formData form))
                      "as-needed").

End MedicineFormInput.

(* ------------------------------------------------------------------ *)
(** ** App.tsx: what the tabs show *)

Module AppView.

(** [arr.slice(-n)]. *)
Definition sliceLast {A} (n : nat) (arr : list A) : list A :=
  skipn (List.length arr - n) arr.

(** [todaysLog.slice(-n).reverse()]: 10 on the history tab, 5 on the
    dashboard. *)
Definition recentActivity (n : nat) (todaysLog : list MedicineLog.t)
  : list MedicineLog.t :=
  rev (sliceLast n todaysLog).

Definition historyTab (now : Date.t) (app : App.t) : list MedicineLog.t :=
  recentActivity 10 (App.getTodaysLog now app).

Definition todaysActivity (now : Date.t) (app : App.t) : list MedicineLog.t :=
  recentActivity 5 (App.getTodaysLog now app).

(** [Math.floor(item.minutesUntil / 60)] and [item.minutesUntil % 60]. *)
Definition inHours (item : Upcoming.t) : Z := Upcoming.minutesUntil item / 60.
Definition inMinutes (item : Upcoming.t) : Z :=
  Z.rem (Upcoming.minutesUntil item) 60.

(** The upcoming tab: [upcomingMedicines.slice(0, 10)], each with its
    "in Xh Ym" label. *)
Definition upcomingTab (medicines : list Medicine.t) (now : Date.t)
  : list (Upcoming.t * Z * Z) :=
  map (fun item => (item, inHours item, inMinutes item))
      (JS.slice0 10 (getUpcomingMedicines medicines now)).

(** The "No upcoming doses" card is shown instead of the list. *)
Definition showsNoUpcoming (medicines : list Medicine.t) (now : Date.t) : bool :=
  Nat.eqb (List.length (getUpcomingMedicines medicines now)) 0.

End AppView.

(** The times of a medicine are ascending by minute of day. *)
Definition timeLe (a b : string) : Prop :=
  exists x y, medicineMinutes a = Some x /\ medicineMinutes b = Some y /\ x <= y.

Definition ascendingTimes (times : list string) : Prop :=
  StronglySorted timeLe times.

(* ------------------------------------------------------------------ *)
(** ** MedicineForm: a session of the form *)

Module FormSession.

Definition colors : list string :=
  ["#ef4444"; "#f97316"; "#eab308"; "#22c55e";
   "#06b6d4"; "#3b82f6"; "#8b5cf6"; "#ec4899"].

(** The initial [useState] values; [today] is
    [new Date().toISOString().split('T')[0]]. *)
Definition initial (today : string) : MedicineForm.t :=
  MedicineForm.mk (MedicineForm.mkFormData "" "" "" today "" "") [""] "#ef4444".

(** What the user can do to the form: type into a field, choose one of the
    offered frequencies, set the time of a shown input, pick a colour. *)
Inductive Event :=
| SetName (v : string)
| SetDosage (v : string)
| FrequencyChange (frequency : string)
| TimeChange (index : nat) (time : string)
| SetStartDate (v : string)
| SetEndDate (v : string)
| SetNotes (v : string)
| SetColor (color : string).

(** [setFormData(prev => ({ ...prev, field: value }))]. *)
Definition setFormData (f : MedicineForm.FormData -> MedicineForm.FormData)
           (form : MedicineForm.t) : MedicineForm.t :=
  MedicineForm.mk (f (MedicineForm.formData form)) (MedicineForm.times form)
                  (MedicineForm.selectedColor form).

Definition step (form : MedicineForm.t) (ev : Event) : option MedicineForm.t :=
  match ev with
  | SetName v =>
      Some (setFormData (fun fd =>
              MedicineForm.mkFormData v (MedicineForm.dosage fd)
                (MedicineForm.frequency fd) (MedicineForm.startDate fd)
                (MedicineForm.endDate fd) (MedicineForm.notes fd)) form)
  | SetDosage v =>
      Some (setFormData (fun fd =>
              MedicineForm.mkFormData (MedicineForm.name fd) v
                (MedicineForm.frequency fd) (MedicineForm.startDate fd)
                (MedicineForm.endDate fd) (MedicineForm.notes fd)) form)
  | FrequencyChange frequency =>
      Some (MedicineFormInput.handleFrequencyChange frequency form)
  | TimeChange index time =>
      if MedicineFormInput.showsTimes form
      then MedicineFormInput.handleTimeChange index time form
      else None
  | SetStartDate v =>
      Some (setFormData (fun fd =>
              MedicineForm.mkFormData (MedicineForm.name fd)
                (MedicineForm.dosage fd) (MedicineForm.frequency fd) v
                (MedicineForm.endDate fd) (MedicineForm.notes fd)) form)
  | SetEndDate v =>
      Some (setFormData (fun fd =>
              MedicineForm.mkFormData (MedicineForm.name fd)
                (MedicineForm.dosage fd) (MedicineForm.frequency fd)
                (MedicineForm.startDate fd) v (MedicineForm.notes fd)) form)
  | SetNotes v =>
      Some (setFormData (fun fd =>
              MedicineForm.mkFormData (MedicineForm.name fd)
                (MedicineForm.dosage fd) (MedicineForm.frequency fd)
                (MedicineForm.startDate fd) (MedicineForm.endDate fd) v) form)
  | SetColor color =>
      Some (MedicineForm.mk (MedicineForm.formData form)
                            (MedicineForm.times form) color)
  end.

(** The form after the events; [None] when one of them is a time change no
    shown input can raise. *)
Fixpoint run (form : MedicineForm.t) (evs : list Event) : option MedicineForm.t :=
  match evs with
  | [] => Some form
  | ev :: rest =>
      match step form ev with
      | Some form' => run form' rest
      | None => None
      end
  end.

(** The frequency select offers the values of [frequencyOptions] only. *)
Definition offered (ev : Event) : Prop :=
  match ev with
  | FrequencyChange frequency =>
      In frequency (map FrequencyOption.value MedicineFormInput.frequencyOptions)
  | _ => True
  end.

(** The number of daily slots of a frequency the form offers. *)
Definition slotCount (frequency : string) : option Z :=
  option_map FrequencyOption.times
    (JS.find (fun opt => String.eqb (FrequencyOption.value opt) frequency)
             MedicineFormInput.frequencyOptions).

End FormSession.

(** What every reachable form satisfies: no frequency chosen yet, or an
    offered one whose count, when it has slots, is the number of time
    fields. *)
Definition formInvariant (form : MedicineForm.t) : Prop :=
  MedicineForm.frequency (MedicineForm.formData form) = "" \/
  exists n,
    FormSession.slotCount (MedicineForm.frequency (MedicineForm.formData form))
    = Some n /\
    (0 < n -> Z.of_nat (List.length (MedicineForm.times form)) = n).

(** The events that leave the card of [id] mounted: no deletion of that
    medicine, and no visit of the add-medicine page (the form replaces the
    page while it is open). *)
Definition keepsCard (id : string) (ev : Session.Event) : Prop :=
  match ev with
  | Session.AddMedicine _ => False
  | Session.VisitForm => False
  | Session.DeleteMedicine id' => id' <> id
  | _ => True
  end.

(** The entry is at most two hours away. *)
Definition withinTwoHours (e : Upcoming.t) : bool :=
  Upcoming.minutesUntil e <=? 120.

(* ================================================================== *)
(** * Properties *)

Example parse_0800 : medicineMinutes "08:00" = Some 480.
Proof. reflexivity. Qed.

Example parse_bad : medicineMinutes "8h" = None.
Proof. reflexivity. Qed.

Example time_string : Date.toTimeString5 (clock 8 5 0) = "08:05".
Proof. reflexivity. Qed.

Example iso_date : Date.toISODate (clock 8 5 0) = "2025-01-15".
Proof. reflexivity. Qed.

Example upcoming_twice_daily :
  getUpcomingMedicines [M1] (clock 7 0 0)
  = [Upcoming.mk M1 "08:00" 60; Upcoming.mk M1 "20:00" 780].
Proof. reflexivity. Qed.

Example upcoming_four :
  getUpcomingMedicines [M4] (clock 7 0 0)
  = [Upcoming.mk M4 "08:00" 60; Upcoming.mk M4 "12:00" 300;
     Upcoming.mk M4 "16:00" 540].
Proof. reflexivity. Qed.

Example next_dose_unsorted :
  MedicineCard.getNextDose Munsorted (clock 7 0 0) = Some "20:00".
Proof. reflexivity. Qed.

Example due_0803 :
  map MedicineCard.dueNowBadge (MedicineCard.schedule M1 (clock 8 3 0) [])
  = [true; false].
Proof. vm_compute. reflexivity. Qed.

Example overdue_0805 :
  map MedicineCard.overdueBadge (MedicineCard.schedule M1 (clock 8 5 0) [])
  = [true; false].
Proof. vm_compute. reflexivity. Qed.

Example tick_0803 :
  map DueNotification.id
      (NotificationAlert.dueNotifications
         (fst (NotificationAlert.checkForDueMedicines
                 [M1] (clock 8 3 0) NotificationAlert.initial)))
  = ["1-08:00"].
Proof. vm_compute. reflexivity. Qed.

(* ------------------------------------------------------------------ *)
(** ** The sort *)

Section Sorting.

Implicit Types (x y e : Upcoming.t) (l : list Upcoming.t).

Lemma insert_perm x l : Permutation (insertByMinutesUntil x l) (x :: l).
Proof.
  induction l as [|y rest IH]; simpl.
  - apply Permutation_refl.
  - destruct (Upcoming.minutesUntil x <=? Upcoming.minutesUntil y).
    + apply Permutation_refl.
    + eapply Permutation_trans; [apply perm_skip, IH | apply perm_swap].
Qed.

Lemma sort_perm l : Permutation (sortByMinutesUntil l) l.
Proof.
  induction l as [|x rest IH]; simpl.
  - constructor.
  - eapply Permutation_trans; [apply insert_perm | apply perm_skip, IH].
Qed.

Lemma insert_sorted x l :
  StronglySorted leMinutes l -> StronglySorted leMinutes (insertByMinutesUntil x l).
Proof.
  induction 1 as [|y rest Hs IH Hy]; simpl.
  - repeat constructor.
  - destruct (Upcoming.minutesUntil x <=? Upcoming.minutesUntil y) eqn:E.
    + apply Z.leb_le in E.
      constructor; [constructor; assumption|].
      constructor; [exact E|].
      eapply Forall_impl; [|exact Hy].
      unfold leMinutes; intros; lia.
    + apply Z.leb_gt in E.
      constructor; [exact IH|].
      eapply Permutation_Forall; [apply Permutation_sym, insert_perm|].
      constructor; [unfold leMinutes; lia | exact Hy].
Qed.

Lemma sort_sorted l : StronglySorted leMinutes (sortByMinutesUntil l).
Proof.
  induction l as [|x rest IH]; simpl; [constructor | apply insert_sorted, IH].
Qed.

Lemma insert_withMinutes k x l :
  withMinutes k (insertByMinutesUntil x l) = withMinutes k (x :: l).
Proof.
  induction l as [|y rest IH]; [reflexivity|].
  simpl insertByMinutesUntil.
  destruct (Upcoming.minutesUntil x <=? Upcoming.minutesUntil y) eqn:E;
    [reflexivity|].
  apply Z.leb_gt in E.
  unfold withMinutes in *. simpl in *. rewrite IH.
  destruct (Upcoming.minutesUntil x =? k) eqn:Ex;
    destruct (Upcoming.minutesUntil y =? k) eqn:Ey; try reflexivity.
  apply Z.eqb_eq in Ex, Ey. lia.
Qed.

Lemma sort_withMinutes k l :
  withMinutes k (sortByMinutesUntil l) = withMinutes k l.
Proof.
  induction l as [|x rest IH]; [reflexivity|].
  simpl sortByMinutesUntil. rewrite insert_withMinutes.
  unfold withMinutes in *. simpl. rewrite IH. reflexivity.
Qed.

Lemma sort_stableSorted l : stableSorted l (sortByMinutesUntil l).
Proof.
  repeat split;
    [apply sort_perm | apply sort_sorted | intro k; apply sort_withMinutes].
Qed.

(** The stable ascending rearrangement of a list is unique: whatever method
    the engine's [sort] uses, it returns what insertion returns. *)
Lemma stableSorted_unique inp out1 out2 :
  stableSorted inp out1 -> stableSorted inp out2 -> out1 = out2.
Proof.
  intros (P1 & S1 & F1) (P2 & S2 & F2).
  assert (P : Permutation out1 out2)
    by (eapply Permutation_trans; [exact P1 | apply Permutation_sym, P2]).
  assert (F : forall k, withMinutes k out1 = withMinutes k out2)
    by (intro k; rewrite F1, F2; reflexivity).
  clear P1 P2 F1 F2 inp.
  revert out2 S2 P F.
  induction S1 as [|x t1 S1 IH Hx]; intros out2 S2 P F.
  - apply Permutation_nil in P. symmetry; exact P.
  - destruct out2 as [|y t2].
    { apply Permutation_sym, Permutation_nil in P. discriminate. }
    inversion S2 as [|? ? S2' Hy]; subst.
    assert (Hxy : Upcoming.minutesUntil x = Upcoming.minutesUntil y).
    { assert (In x (y :: t2)) as [->|Hin]
        by (eapply Permutation_in; [exact P | left; reflexivity]);
        [reflexivity|].
      assert (In y (x :: t1)) as [->|Hin']
        by (eapply Permutation_in; [apply Permutation_sym, P | left; reflexivity]);
        [reflexivity|].
      rewrite Forall_forall in Hx, Hy.
      specialize (Hx _ Hin'). specialize (Hy _ Hin).
      unfold leMinutes in *. lia. }
    assert (x = y).
    { specialize (F (Upcoming.minutesUntil x)).
      unfold withMinutes in F. simpl in F.
      rewrite <- Hxy, Z.eqb_refl in F. congruence. }
    subst y. f_equal.
    apply IH; [exact S2' | eapply Permutation_cons_inv; exact P |].
    intro k. specialize (F k). unfold withMinutes in *. simpl in F.
    destruct (Upcoming.minutesUntil x =? k); congruence.
Qed.

End Sorting.

(* ------------------------------------------------------------------ *)
(** ** The dose projector *)

Lemma pushUpcoming_slotEntry cur medicine acc time :
  pushUpcoming cur medicine acc time = acc ++ slotEntry cur medicine time.
Proof.
  unfold pushUpcoming, slotEntry.
  destruct (medicineMinutes time) as [mm|]; simpl.
  - destruct (mm >? cur); [reflexivity | symmetry; apply app_nil_r].
  - symmetry; apply app_nil_r.
Qed.

Lemma fold_pushUpcoming cur medicine times acc :
  fold_left (pushUpcoming cur medicine) times acc
  = acc ++ flat_map (slotEntry cur medicine) times.
Proof.
  revert acc; induction times as [|time rest IH]; intro acc; simpl.
  - symmetry; apply app_nil_r.
  - rewrite IH, pushUpcoming_slotEntry, <- app_assoc. reflexivity.
Qed.

Lemma collectUpcoming_candidates medicines now :
  collectUpcoming medicines now = candidates medicines now.
Proof.
  unfold collectUpcoming, candidates.
  generalize (currentMinutes now) as cur; intro cur.
  enough (H : forall acc,
             fold_left (pushMedicine cur) medicines acc
             = acc ++ flat_map
                 (fun medicine =>
                    if as_needed medicine then []
                    else flat_map (slotEntry cur medicine)
                                  (Medicine.times medicine)) medicines)
    by (rewrite H; reflexivity).
  induction medicines as [|m rest IH]; intro acc; simpl.
  - symmetry; apply app_nil_r.
  - rewrite IH. unfold pushMedicine.
    destruct (as_needed m).
    + reflexivity.
    + rewrite fold_pushUpcoming, <- app_assoc. reflexivity.
Qed.

Lemma in_slotEntry cur medicine time e :
  In e (slotEntry cur medicine time) <->
  exists mm, medicineMinutes time = Some mm /\ cur < mm /\
             e = Upcoming.mk medicine time (mm - cur).
Proof.
  unfold slotEntry. destruct (medicineMinutes time) as [mm|].
  - destruct (mm >? cur) eqn:E.
    + apply Z.gtb_lt in E. simpl. split.
      * intros [<-|[]]. exists mm. auto.
      * intros (mm' & Hm & _ & ->). inversion Hm. auto.
    + split; [intros []|].
      intros (mm' & Hm & Hlt & _). inversion Hm; subst.
      rewrite Z.gtb_ltb in E. apply Z.ltb_ge in E. lia.
  - split; [intros [] | intros (? & H & _); discriminate].
Qed.

Lemma in_candidates medicines now e :
  In e (candidates medicines now) <->
  exists medicine time mm,
    In medicine medicines /\ as_needed medicine = false /\
    In time (Medicine.times medicine) /\
    medicineMinutes time = Some mm /\ currentMinutes now < mm /\
    e = Upcoming.mk medicine time (mm - currentMinutes now).
Proof.
  unfold candidates. rewrite in_flat_map. split.
  - intros (m & Hm & He). destruct (as_needed m) eqn:A; [destruct He|].
    apply in_flat_map in He. destruct He as (time & Ht & He).
    apply in_slotEntry in He. destruct He as (mm & H1 & H2 & H3).
    exists m, time, mm. repeat split; assumption.
  - intros (m & time & mm & Hm & A & Ht & H1 & H2 & H3).
    exists m. split; [exact Hm|]. rewrite A.
    apply in_flat_map. exists time. split; [exact Ht|].
    apply in_slotEntry. exists mm. auto.
Qed.

Lemma slice0_In {A} n (arr : list A) x : In x (JS.slice0 n arr) -> In x arr.
Proof.
  unfold JS.slice0. intro H.
  rewrite <- (firstn_skipn n arr). apply in_or_app. left; exact H.
Qed.

(** C1 (as stated) fails: the operation itself cuts the ordered sequence to
    its first three entries.  With four slots ahead of 07:00 the 20:00 slot,
    a slot of a medicine that is not as-needed and whose minute of day is
    after now's, has no entry in the result, and the result is not a
    rearrangement of all the pairs. *)
Lemma upcoming_is_truncated :
  as_needed M4 = false /\ In "20:00" (Medicine.times M4) /\
  medicineMinutes "20:00" = Some 1200 /\
  currentMinutes (clock 7 0 0) < 1200 /\
  ~ In (Upcoming.mk M4 "20:00" (1200 - currentMinutes (clock 7 0 0)))
       (getUpcomingMedicines [M4] (clock 7 0 0)) /\
  ~ stableSorted (candidates [M4] (clock 7 0 0))
                 (getUpcomingMedicines [M4] (clock 7 0 0)).
Proof.
  repeat split; try reflexivity.
  - simpl. tauto.
  - vm_compute. intros [H|[H|[H|[]]]]; discriminate H.
  - intros (P & _). apply Permutation_length in P. vm_compute in P.
    discriminate P.
Qed.

(** C1 (amended): for every list of medicines and every now,
    [getUpcomingMedicines] returns the first three entries of the full ordered
    sequence, where the full sequence holds exactly one entry
    [{medicine, time, minutesUntil = slotMinute - nowMinute}] for every pair of
    a medicine that is not as-needed and a slot whose minute of day is
    strictly after now's, ascending by [minutesUntil], ties in insertion
    order; every returned entry has [minutesUntil > 0]. *)
Theorem getUpcomingMedicines_first_three medicines now :
  exists full,
    getUpcomingMedicines medicines now = firstn 3 full /\
    stableSorted (candidates medicines now) full /\
    (forall e, In e full <->
       exists medicine time mm,
         In medicine medicines /\ as_needed medicine = false /\
         In time (Medicine.times medicine) /\
         medicineMinutes time = Some mm /\ currentMinutes now < mm /\
         e = Upcoming.mk medicine time (mm - currentMinutes now)) /\
    (forall e, In e (getUpcomingMedicines medicines now) ->
               0 < Upcoming.minutesUntil e).
Proof.
  exists (sortByMinutesUntil (candidates medicines now)).
  assert (Hin : forall e,
             In e (sortByMinutesUntil (candidates medicines now)) <->
             In e (candidates medicines now)).
  { intro e; split; apply Permutation_in;
      [apply sort_perm | apply Permutation_sym, sort_perm]. }
  unfold getUpcomingMedicines.
  rewrite collectUpcoming_candidates.
  split; [reflexivity|].
  split; [apply sort_stableSorted|].
  split.
  - intro e. rewrite Hin. apply in_candidates.
  - intros e He. apply slice0_In, Hin, in_candidates in He.
    destruct He as (m & time & mm & _ & _ & _ & _ & Hlt & ->). simpl. lia.
Qed.

(** The amended property at the input where the stated one fails: the three
    entries returned for [M4] at 07:00 are the head of a stable ascending
    rearrangement of all four. *)
Lemma getUpcomingMedicines_first_three_witness :
  exists full,
    getUpcomingMedicines [M4] (clock 7 0 0) = firstn 3 full /\
    stableSorted (candidates [M4] (clock 7 0 0)) full /\
    (forall e, In e full <->
       exists medicine time mm,
         In medicine [M4] /\ as_needed medicine = false /\
         In time (Medicine.times medicine) /\
         medicineMinutes time = Some mm /\ currentMinutes (clock 7 0 0) < mm /\
         e = Upcoming.mk medicine time (mm - currentMinutes (clock 7 0 0))) /\
    (forall e, In e (getUpcomingMedicines [M4] (clock 7 0 0)) ->
               0 < Upcoming.minutesUntil e).
Proof.
  exact (getUpcomingMedicines_first_three [M4] (clock 7 0 0)).
Defined.

(* ------------------------------------------------------------------ *)
(** ** The card's classification *)

Lemma includes_In l x : JS.includes l x = true <-> In x l.
Proof.
  unfold JS.includes. rewrite existsb_exists. split.
  - intros (y & Hy & E). apply String.eqb_eq in E. subst. exact Hy.
  - intro H. exists x. split; [exact H | apply String.eqb_refl].
Qed.

Lemma includes_false l x : JS.includes l x = false <-> ~ In x l.
Proof.
  rewrite <- includes_In. destruct (JS.includes l x); split; intro H;
    try reflexivity; try discriminate; try (intro; discriminate).
  exfalso; apply H; reflexivity.
Qed.


Lemma quotient_le_15 d :
  Qle_bool (inject_Z d / inject_Z (1000 * 60)) (inject_Z 15) = true
  <-> d <= 15 * 60000.
Proof.
  rewrite Qle_bool_iff. unfold Qle, Qdiv, Qmult, Qinv, inject_Z. simpl.
  lia.
Qed.

Lemma isDueNow_iff now time :
  MedicineCard.isDueNow now time = true <->
  exists mt, MedicineCard.medicineTime time = Some mt /\
             Z.abs (Date.getTime now - mt) <= 15 * 60000.
Proof.
  unfold MedicineCard.isDueNow, MedicineCard.diffMinutes.
  destruct (MedicineCard.medicineTime time) as [mt|]; simpl.
  - rewrite quotient_le_15. split.
    + intro H. exists mt. auto.
    + intros (mt' & E & H). inversion E. subst. exact H.
  - split; [discriminate | intros (? & E & _); discriminate].
Qed.

Lemma isOverdue_iff now takenTimes time :
  MedicineCard.isOverdue now takenTimes time = true <->
  (exists mt, MedicineCard.medicineTime time = Some mt /\
              mt < Date.getTime now) /\
  ~ In time takenTimes.
Proof.
  unfold MedicineCard.isOverdue.
  rewrite andb_true_iff, negb_true_iff, includes_false.
  destruct (MedicineCard.medicineTime time) as [mt|]; simpl.
  - rewrite Z.gtb_ltb, Z.ltb_lt. split.
    + intros (H & T). split; [exists mt; auto | exact T].
    + intros ((mt' & E & H) & T). inversion E; subst. auto.
  - split; [intros (H & _); discriminate |
            intros ((? & E & _) & _); discriminate].
Qed.



(** C2 (as stated) fails: five minutes after its time an untaken slot is
    reported overdue although it is also reported due-now; the overdue report
    does not wait for the 15-minute window to pass. *)
Lemma overdue_inside_due_window :
  MedicineCard.overdueBadge (MedicineCard.renderRow (clock 8 5 0) [] "08:00")
  = true /\
  MedicineCard.dueNowBadge (MedicineCard.renderRow (clock 8 5 0) [] "08:00")
  = true /\
  ~ (MedicineCard.overdueBadge (MedicineCard.renderRow (clock 8 5 0) [] "08:00")
     = true <->
     (exists mt, MedicineCard.medicineTime "08:00" = Some mt /\
                 mt < Date.getTime (clock 8 5 0)) /\
     ~ In "08:00" (@nil string) /\
     MedicineCard.dueNowBadge (MedicineCard.renderRow (clock 8 5 0) [] "08:00")
     = false).
Proof.
  assert (O : MedicineCard.overdueBadge
                (MedicineCard.renderRow (clock 8 5 0) [] "08:00") = true)
    by (vm_compute; reflexivity).
  assert (D : MedicineCard.dueNowBadge
                (MedicineCard.renderRow (clock 8 5 0) [] "08:00") = true)
    by (vm_compute; reflexivity).
  split; [exact O|]. split; [exact D|].
  intros [H _]. destruct (H O) as (_ & _ & D'). congruence.
Qed.

(** C2 (amended): the card reports a slot as overdue (shows the "Overdue"
    badge) exactly when wall-clock now is strictly after the slot's time today
    and the slot is not in the taken-set.  The due-now window takes precedence
    only in the row's border style.  At 08:20 an untaken 08:00 slot is
    reported overdue and not due-now. *)
Theorem overdue_badge_iff :
  (forall now takenTimes time,
     MedicineCard.overdueBadge (MedicineCard.renderRow now takenTimes time) = true
     <->
     (exists mt, MedicineCard.medicineTime time = Some mt /\
                 mt < Date.getTime now) /\
     ~ In time takenTimes) /\
  (forall now takenTimes time,
     MedicineCard.isDueNow now time = true ->
     MedicineCard.border (MedicineCard.renderRow now takenTimes time)
     = MedicineCard.BorderPrimary) /\
  MedicineCard.overdueBadge (MedicineCard.renderRow (clock 8 20 0) [] "08:00")
  = true /\
  MedicineCard.dueNowBadge (MedicineCard.renderRow (clock 8 20 0) [] "08:00")
  = false.
Proof.
  split; [|split; [|split; vm_compute; reflexivity]].
  - intros now takenTimes time. simpl.
    rewrite andb_true_iff, negb_true_iff, includes_false, isOverdue_iff.
    tauto.
  - intros now takenTimes time H. simpl. rewrite H. reflexivity.
Qed.

Lemma overdue_badge_iff_witness :
  MedicineCard.overdueBadge (MedicineCard.renderRow (clock 8 5 0) [] "08:00")
  = true /\
  MedicineCard.border (MedicineCard.renderRow (clock 8 5 0) [] "08:00")
  = MedicineCard.BorderPrimary.
Proof.
  destruct overdue_badge_iff as (O & B & _). split.
  - apply O. split; [|intros []].
    exists 28800000. split; [reflexivity | vm_compute; reflexivity].
  - apply B. vm_compute. reflexivity.
Defined.

(* ------------------------------------------------------------------ *)
(** ** The notification engine: the due set *)

Section DueSet.

Import NotificationAlert.

Lemma pushDue_dueEntry cur dismissed medicine acc time :
  pushDue cur dismissed medicine acc time
  = acc ++ dueEntry cur dismissed medicine time.
Proof.
  unfold dueEntry, pushDue.
  destruct (JS.le _ _); [|symmetry; apply app_nil_r].
  destruct (negb _); [reflexivity | symmetry; apply app_nil_r].
Qed.

Lemma fold_pushDue cur dismissed medicine times acc :
  fold_left (pushDue cur dismissed medicine) times acc
  = acc ++ flat_map (dueEntry cur dismissed medicine) times.
Proof.
  revert acc; induction times as [|time rest IH]; intro acc; simpl.
  - symmetry; apply app_nil_r.
  - rewrite IH, pushDue_dueEntry, <- app_assoc. reflexivity.
Qed.

Lemma newDueNotifications_flat_map medicines now dismissed :
  newDueNotifications medicines now dismissed
  = flat_map (fun medicine =>
                if as_needed medicine then []
                else flat_map (dueEntry (currentMinutes now) dismissed medicine)
                              (Medicine.times medicine))
             medicines.
Proof.
  unfold newDueNotifications.
  generalize (currentMinutes now) as cur; intro cur.
  enough (H : forall acc,
             fold_left (pushDueMedicine cur dismissed) medicines acc
             = acc ++ flat_map
                 (fun medicine =>
                    if as_needed medicine then []
                    else flat_map (dueEntry cur dismissed medicine)
                                  (Medicine.times medicine)) medicines)
    by (rewrite H; reflexivity).
  induction medicines as [|m rest IH]; intro acc; simpl.
  - symmetry; apply app_nil_r.
  - rewrite IH. unfold pushDueMedicine.
    destruct (as_needed m).
    + reflexivity.
    + rewrite fold_pushDue, <- app_assoc. reflexivity.
Qed.

Lemma in_dueEntry cur dismissed medicine time n :
  In n (dueEntry cur dismissed medicine time) <->
  (exists mm, medicineMinutes time = Some mm /\ Z.abs (cur - mm) <= 5) /\
  ~ In (notificationId medicine time) dismissed /\
  n = DueNotification.mk medicine time (notificationId medicine time).
Proof.
  unfold dueEntry, pushDue.
  destruct (medicineMinutes time) as [mm|]; simpl.
  - destruct (Z.abs (cur - mm) <=? 5) eqn:E.
    + apply Z.leb_le in E.
      destruct (JS.includes dismissed (notificationId medicine time)) eqn:I;
        simpl.
      * apply includes_In in I. split; [intros [] | tauto].
      * apply includes_false in I. split.
        -- intros [<-|[]]. split; [exists mm; auto | auto].
        -- intros (_ & _ & ->). left; reflexivity.
    + apply Z.leb_gt in E. split; [intros []|].
      intros ((mm' & Hm & H) & _). inversion Hm; subst. lia.
  - split; [intros [] | intros ((? & Hm & _) & _); discriminate].
Qed.

Lemma in_newDueNotifications medicines now dismissed n :
  In n (newDueNotifications medicines now dismissed) <->
  exists medicine time,
    In medicine medicines /\
    dueSlot (currentMinutes now) dismissed medicine time /\
    n = DueNotification.mk medicine time (notificationId medicine time).
Proof.
  rewrite newDueNotifications_flat_map, in_flat_map. unfold dueSlot. split.
  - intros (m & Hm & Hn). destruct (as_needed m) eqn:A; [destruct Hn|].
    apply in_flat_map in Hn. destruct Hn as (time & Ht & Hn).
    apply in_dueEntry in Hn. destruct Hn as (W & D & ->).
    exists m, time. repeat split; assumption.
  - intros (m & time & Hm & (A & Ht & W & D) & ->).
    exists m. split; [exact Hm|]. rewrite A.
    apply in_flat_map. exists time. split; [exact Ht|].
    apply in_dueEntry. repeat split; assumption.
Qed.

Lemma check_dueNotifications medicines now st :
  dueNotifications (fst (checkForDueMedicines medicines now st))
  = newDueNotifications medicines now (dismissedNotifications st).
Proof.
  unfold checkForDueMedicines.
  destruct (_ && _ && _); reflexivity.
Qed.

End DueSet.



(* ------------------------------------------------------------------ *)
(** ** The notification engine: the alarm *)

Section Alarm.

Import NotificationAlert.

Lemma fresh_id_iff played ids :
  existsb (fun id => negb (JS.includes played id)) ids = true <->
  exists id, In id ids /\ ~ In id played.
Proof.
  rewrite existsb_exists. split; intros (id & Hin & H); exists id;
    (split; [exact Hin|]).
  - apply negb_true_iff, includes_false in H. exact H.
  - apply negb_true_iff, includes_false. exact H.
Qed.

(** The two outcomes of an evaluation. *)
Lemma check_outcome medicines now st :
  let due := newDueNotifications medicines now (dismissedNotifications st) in
  (soundEnabled st = true /\
   (exists id, In id (map DueNotification.id due) /\
               ~ In id (hasPlayedSound st)) /\
   checkForDueMedicines medicines now st
   = (mk due (dismissedNotifications st) (soundEnabled st)
         (hasPlayedSound st ++ map DueNotification.id due),
      [PlayAlarmSound]))
  \/
  (~ (soundEnabled st = true /\
      exists id, In id (map DueNotification.id due) /\
                 ~ In id (hasPlayedSound st)) /\
   checkForDueMedicines medicines now st
   = (mk due (dismissedNotifications st) (soundEnabled st) (hasPlayedSound st),
      [])).
Proof.
  intro due. unfold checkForDueMedicines. fold due.
  destruct (soundEnabled st) eqn:S; simpl.
  - destruct (existsb _ (map DueNotification.id due)) eqn:F.
    + pose proof F as F'. apply fresh_id_iff in F'.
      assert (N : (0 <? Z.of_nat (List.length due)) = true).
      { destruct F' as (id & Hin & _). destruct due; [destruct Hin|].
        reflexivity. }
      rewrite N. simpl. left. auto.
    + rewrite andb_false_r. right. split; [|reflexivity].
      intros (_ & F'). apply fresh_id_iff in F'. congruence.
  - right. split; [|reflexivity]. intros (C & _). discriminate C.
Qed.

Lemma step_keeps_played canVibrate st ev id :
  In id (hasPlayedSound st) ->
  In id (hasPlayedSound (fst (step canVibrate st ev))).
Proof.
  intro H. destruct ev as [medicines now| | | |]; simpl; try exact H.
  destruct (check_outcome medicines now st) as [(_ & _ & E)|(_ & E)];
    rewrite E; simpl; [apply in_or_app; left|]; exact H.
Qed.

End Alarm.

(** C6 (as stated) fails over a session of the page: [hasPlayedSound] is
    state of the alert component, and App unmounts the alert while it shows
    the add-medicine page.  The alarm of the 08:00 dose is played at 08:00;
    the add-medicine page is opened and left; at 08:02 the newly mounted
    alert finds the same notification, the only one in its due set, and
    auto-triggers the alarm for it again. *)
Lemma alarm_plays_again_after_form :
  In "1-08:00"
     (NotificationAlert.hasPlayedSound (Session.alert sessionAlarmPlayed)) /\
  NotificationAlert.hasPlayedSound (Session.alert sessionAfterForm) = [] /\
  dueIds (Session.alert
            (Session.step true sessionAfterForm (Session.Tick (clock 8 2 0))))
  = ["1-08:00"] /\
  NotificationAlert.alarms
    (snd (NotificationAlert.checkForDueMedicines
            (App.medicines (Session.app sessionAfterForm)) (clock 8 2 0)
            (Session.alert sessionAfterForm)))
  = 1%nat.
Proof.
  repeat split; vm_compute; auto.
Qed.

(** C6 (amended): within the life of one mounted instance of the alert, that
    is between two visits of the add-medicine page, an evaluation of the
    engine auto-triggers the alarm exactly when sound is enabled and the newly
    computed due set holds an id that is not yet in [hasPlayedSound]; it then
    triggers it once and adds the ids of the due set to [hasPlayedSound].
    Ids are never removed from [hasPlayedSound] while the instance lives, so
    once an id is in it, every later auto-trigger is owed to another id that
    is new at that evaluation, however long the first one stays in the due
    set. *)
Theorem alarm_once_per_notification :
  (forall medicines now st,
     let st' := fst (NotificationAlert.checkForDueMedicines medicines now st) in
     let fx := snd (NotificationAlert.checkForDueMedicines medicines now st) in
     (NotificationAlert.alarms fx = 1%nat <->
      NotificationAlert.soundEnabled st = true /\
      exists id, In id (dueIds st') /\
                 ~ In id (NotificationAlert.hasPlayedSound st)) /\
     (NotificationAlert.alarms fx = 0%nat \/ NotificationAlert.alarms fx = 1%nat) /\
     (NotificationAlert.alarms fx = 1%nat ->
      forall id, In id (dueIds st') ->
                 In id (NotificationAlert.hasPlayedSound st')) /\
     (forall id, In id (NotificationAlert.hasPlayedSound st) ->
                 In id (NotificationAlert.hasPlayedSound st'))) /\
  (forall canVibrate st evs id,
     In id (NotificationAlert.hasPlayedSound st) ->
     Forall (fun '(before, ev, fx) =>
               In id (NotificationAlert.hasPlayedSound before) /\
               forall medicines now,
                 ev = NotificationAlert.Tick medicines now ->
                 NotificationAlert.alarms fx = 1%nat ->
                 exists id',
                   id' <> id /\
                   In id' (dueIds (fst (NotificationAlert.checkForDueMedicines
                                          medicines now before))) /\
                   ~ In id' (NotificationAlert.hasPlayedSound before))
            (NotificationAlert.run canVibrate st evs)).
Proof.
  assert (tick : forall medicines now st,
     let st' := fst (NotificationAlert.checkForDueMedicines medicines now st) in
     let fx := snd (NotificationAlert.checkForDueMedicines medicines now st) in
     (NotificationAlert.alarms fx = 1%nat <->
      NotificationAlert.soundEnabled st = true /\
      exists id, In id (dueIds st') /\
                 ~ In id (NotificationAlert.hasPlayedSound st)) /\
     (NotificationAlert.alarms fx = 0%nat \/ NotificationAlert.alarms fx = 1%nat) /\
     (NotificationAlert.alarms fx = 1%nat ->
      forall id, In id (dueIds st') ->
                 In id (NotificationAlert.hasPlayedSound st')) /\
     (forall id, In id (NotificationAlert.hasPlayedSound st) ->
                 In id (NotificationAlert.hasPlayedSound st'))).
  { intros medicines now st st' fx. subst st' fx. unfold dueIds.
    destruct (check_outcome medicines now st) as [(S & F & E)|(N & E)];
      rewrite E; simpl.
    - repeat split; auto.
      + intros _ id Hin. apply in_or_app. right. exact Hin.
      + intros id Hin. apply in_or_app. left. exact Hin.
    - repeat split; auto; try discriminate.
      intros (S & F). exfalso. apply N. auto. }
  split; [exact tick|].
  intros canVibrate st evs. revert st.
  induction evs as [|ev rest IH]; intros st id Hid; simpl.
  - constructor.
  - pose proof (step_keeps_played canVibrate st ev id Hid) as Hnext.
    destruct (NotificationAlert.step canVibrate st ev) as [st' fx] eqn:E.
    simpl in Hnext. constructor.
    + split; [exact Hid|].
      intros medicines now -> A. simpl in E.
      destruct (tick medicines now st) as (T & _). rewrite E in T. simpl in T.
      apply T in A. destruct A as (_ & id' & Hin & Hfresh).
      exists id'. split; [intros ->; contradiction|].
      rewrite E. simpl. auto.
    + apply IH. exact Hnext.
Qed.

(** The property at work: the alarm of 08:00 has been played, the notification
    stays on display for two more evaluations, the alarm stays silent. *)
Lemma alarm_once_per_notification_witness :
  Forall (fun '(before, ev, fx) =>
            In "1-08:00" (NotificationAlert.hasPlayedSound before) /\
            forall medicines now,
              ev = NotificationAlert.Tick medicines now ->
              NotificationAlert.alarms fx = 1%nat ->
              exists id',
                id' <> "1-08:00" /\
                In id' (dueIds (fst (NotificationAlert.checkForDueMedicines
                                       medicines now before))) /\
                ~ In id' (NotificationAlert.hasPlayedSound before))
         (NotificationAlert.run true
            (fst (NotificationAlert.checkForDueMedicines
                    [M1] (clock 8 0 0) NotificationAlert.initial))
            [NotificationAlert.Tick [M1] (clock 8 1 0);
             NotificationAlert.Tick [M1] (clock 8 2 0)]).
Proof.
  apply (proj2 alarm_once_per_notification).
  vm_compute. left. reflexivity.
Defined.

Example alarm_silent_on_later_ticks :
  map (fun '(_, _, fx) => NotificationAlert.alarms fx)
      (NotificationAlert.run true NotificationAlert.initial
         [NotificationAlert.Tick [M1] (clock 8 0 0);
          NotificationAlert.Tick [M1] (clock 8 1 0);
          NotificationAlert.Tick [M1] (clock 8 2 0)])
  = [1%nat; 0%nat; 0%nat].
Proof. vm_compute. reflexivity. Qed.

(* ------------------------------------------------------------------ *)
(** ** The engine's window and the card's window *)




(* ------------------------------------------------------------------ *)
(** ** The adherence log *)

Lemma filter_all {A} (f : A -> bool) (l : list A) :
  (forall x, In x l -> f x = true) -> filter f l = l.
Proof.
  induction l as [|a l IH]; intro H; simpl; [reflexivity|].
  rewrite (H a (or_introl eq_refl)), IH; [reflexivity|].
  intros x Hx. apply H. right. exact Hx.
Qed.

Section ClockTexts.



End ClockTexts.




Example take_logs_entry :
  App.medicineLog
    (App.handleTakeMedicine (clock 8 5 0) "1" "08:00" (App.mk [M1] []))
  = [MedicineLog.mk "1" "M" "08:00" "08:05" "2025-01-15"].
Proof. reflexivity. Qed.

(** C10: deleting a medicine removes from the collection exactly the medicine
    with the given id and leaves the adherence log as it was: every entry,
    those of the deleted medicine included, is still there with its
    [medicineName], and today's log is unchanged. *)
Theorem delete_keeps_log id app now :
  (forall m, In m (App.medicines (App.handleDeleteMedicine id app)) <->
             In m (App.medicines app) /\ Medicine.id m <> id) /\
  (forall before medicine after,
     App.medicines app = before ++ medicine :: after ->
     Medicine.id medicine = id ->
     (forall m, In m (before ++ after) -> Medicine.id m <> id) ->
     App.medicines (App.handleDeleteMedicine id app) = before ++ after) /\
  App.medicineLog (App.handleDeleteMedicine id app) = App.medicineLog app /\
  App.getTodaysLog now (App.handleDeleteMedicine id app)
  = App.getTodaysLog now app /\
  (forall entry,
     In entry (App.getTodaysLog now app) ->
     MedicineLog.medicineId entry = id ->
     In entry (App.getTodaysLog now (App.handleDeleteMedicine id app))).
Proof.
  split; [|split; [|split; [reflexivity | split; [reflexivity|]]]].
  - intro m. simpl. rewrite filter_In, negb_true_iff, String.eqb_neq.
    reflexivity.
  - intros before medicine after E Hid Hrest. simpl. rewrite E.
    rewrite filter_app. simpl.
    replace (Medicine.id medicine =? id)%string with true
      by (symmetry; apply String.eqb_eq; exact Hid).
    simpl. rewrite <- filter_app. apply filter_all.
    intros m Hm. apply negb_true_iff, String.eqb_neq, Hrest, Hm.
  - intros entry H _. exact H.
Qed.

Lemma delete_keeps_log_witness :
  App.medicines
    (App.handleDeleteMedicine "1"
       (App.mk [M4; M1; Munsorted]
               [MedicineLog.mk "1" "M" "08:00" "08:05" "2025-01-15"]))
  = [M4] ++ [Munsorted] /\
  In (MedicineLog.mk "1" "M" "08:00" "08:05" "2025-01-15")
     (App.getTodaysLog (clock 9 0 0)
        (App.handleDeleteMedicine "1"
           (App.mk [M4; M1; Munsorted]
                   [MedicineLog.mk "1" "M" "08:00" "08:05" "2025-01-15"]))).
Proof.
  pose proof (delete_keeps_log "1"
                (App.mk [M4; M1; Munsorted]
                        [MedicineLog.mk "1" "M" "08:00" "08:05" "2025-01-15"])
                (clock 9 0 0)) as (_ & Hrm & _ & _ & Hlog).
  split.
  - apply (Hrm [M4] M1 [Munsorted]); [reflexivity | reflexivity |].
    intros m [<-|[<-|[]]]; discriminate.
  - apply Hlog; [vm_compute; left; reflexivity | reflexivity].
Defined.

(* ------------------------------------------------------------------ *)
(** ** Taken doses on the card *)

(** A slot in the card's taken-set is shown as taken at every clock reading:
    struck through, without badge and without button. *)
Lemma taken_row now takenTimes time :
  In time takenTimes ->
  report (MedicineCard.renderRow now takenTimes time) = (time, true, false, false)
  /\ MedicineCard.takeButton (MedicineCard.renderRow now takenTimes time) = None
  /\ MedicineCard.icon (MedicineCard.renderRow now takenTimes time)
     = MedicineCard.CheckCircle.
Proof.
  intro H. apply includes_In in H.
  unfold report, MedicineCard.renderRow, MedicineCard.isOverdue. simpl.
  rewrite H. simpl. rewrite !andb_false_r. auto.
Qed.

(** The card's button puts the slot into the card's taken-set, and the set
    only grows while the card stays mounted. *)
Lemma card_take_adds time takenTimes :
  In time (MedicineCard.handleTakeMedicine time takenTimes) /\
  forall t, In t takenTimes ->
            In t (MedicineCard.handleTakeMedicine time takenTimes).
Proof.
  unfold MedicineCard.handleTakeMedicine. split.
  - apply in_or_app. right. left. reflexivity.
  - intros t H. apply in_or_app. left. exact H.
Qed.

(** The alert's handlers never touch a card's taken-set. *)
Lemma alert_keeps_takenTimes canVibrate now ev s :
  Session.takenTimes (Session.alertStep canVibrate now ev s)
  = Session.takenTimes s.
Proof.
  unfold Session.alertStep.
  destruct (NotificationAlert.step canVibrate (Session.alert s) ev).
  reflexivity.
Qed.

(** C7, the code at the failing input: the 08:00 dose is marked as taken on
    the notification at 08:05.  The take is logged and the notification is
    dismissed, but at 08:20 the card still reports the slot overdue, not
    taken.  The same take done with the card's button is reported taken. *)
Lemma take_on_alert_not_taken_on_card :
  App.medicineLog (Session.app sessionTakenOnAlert)
  = [MedicineLog.mk "1" "M" "08:00" "08:05" "2025-01-15"] /\
  NotificationAlert.dueNotifications (Session.alert sessionTakenOnAlert) = [] /\
  map report (Session.cardRows sessionTakenOnAlert M1 (clock 8 20 0))
  = [("08:00", false, false, true); ("20:00", false, false, false)] /\
  map report
      (Session.cardRows
         (Session.run true Session.initial
            [Session.AddMedicine M1;
             Session.CardTake "1" "08:00" (clock 8 5 0)])
         M1 (clock 8 20 0))
  = [("08:00", true, false, false); ("20:00", false, false, false)].
Proof.
  repeat split; vm_compute; reflexivity.
Qed.

(* ------------------------------------------------------------------ *)
(** ** The slot list *)

(** An as-needed medicine takes no part in the time-driven projections: the
    form stores no times for it, and whatever times it carries, it has no next
    dose, no schedule rows, no upcoming entry and no notification. *)
Lemma as_needed_excluded medicine :
  as_needed medicine = true ->
  (forall now, MedicineCard.getNextDose medicine now = None) /\
  (forall now takenTimes, MedicineCard.schedule medicine now takenTimes = []) /\
  (forall medicines now e,
     In e (sortByMinutesUntil (collectUpcoming medicines now)) ->
     Upcoming.medicine e <> medicine) /\
  (forall medicines now st n,
     In n (NotificationAlert.dueNotifications
             (fst (NotificationAlert.checkForDueMedicines medicines now st))) ->
     DueNotification.medicine n <> medicine).
Proof.
  intro A. repeat split.
  - intro now. unfold MedicineCard.getNextDose. rewrite A. reflexivity.
  - intros now takenTimes. unfold MedicineCard.schedule. rewrite A. reflexivity.
  - intros medicines now e He.
    eapply Permutation_in in He; [|apply sort_perm].
    rewrite collectUpcoming_candidates in He. apply in_candidates in He.
    destruct He as (m & time & mm & _ & A' & _ & _ & _ & ->). simpl.
    intros ->. congruence.
  - intros medicines now st n Hn. rewrite check_dueNotifications in Hn.
    apply in_newDueNotifications in Hn.
    destruct Hn as (m & time & _ & (A' & _) & ->). simpl.
    intros ->. congruence.
Qed.

Lemma submit_as_needed_has_no_times dateNow form medicine :
  MedicineForm.handleSubmit dateNow form = Some medicine ->
  as_needed medicine = true -> Medicine.times medicine = [].
Proof.
  unfold MedicineForm.handleSubmit, as_needed.
  destruct (_ || _ || _); [discriminate|].
  destruct (_ && _); [discriminate|].
  intros E A. inversion E; subst; clear E. simpl in *. rewrite A. reflexivity.
Qed.

(** C4, the code at the failing input: the form stores the times as they were
    entered, here the evening time first, and the card reads them in that
    order.  At 07:00 the next dose is given as 20:00 although 08:00 comes
    first; at 21:00 the "first dose of tomorrow" is given as 20:00. *)
Lemma unsorted_times_reach_next_dose :
  MedicineForm.handleSubmit "7" formUnsorted = Some Munsorted /\
  map medicineMinutes (Medicine.times Munsorted) = [Some 1200; Some 480] /\
  MedicineCard.getNextDose Munsorted (clock 7 0 0) = Some "20:00" /\
  MedicineCard.getNextDose Munsorted (clock 21 0 0) = Some "20:00" /\
  map MedicineCard.time (MedicineCard.schedule Munsorted (clock 7 0 0) [])
  = ["20:00"; "08:00"].
Proof.
  repeat split; vm_compute; reflexivity.
Qed.

(* ------------------------------------------------------------------ *)
(** ** Clock strings *)

(** The [HH:MM] text written for a clock reading is read back, by the parsing
    the scheduling code applies to slot times, as that reading's minute of
    day. *)
Lemma toTimeString5_reads_back now :
  0 <= Date.getHours now < 24 -> 0 <= Date.getMinutes now < 60 ->
  medicineMinutes (Date.toTimeString5 now) = Some (currentMinutes now).
Proof.
  intros Hh Hm.
  assert (table :
            forallb (fun h =>
              forallb (fun m =>
                match medicineMinutes
                        (Date.toTimeString5
                           (Date.mk 0 0 1 (Z.of_nat h) (Z.of_nat m) 0 0 0 0 1)) with
                | Some v => v =? Z.of_nat h * 60 + Z.of_nat m
                | None => false
                end) (seq 0 60)) (seq 0 24) = true)
    by (vm_compute; reflexivity).
  rewrite forallb_forall in table.
  specialize (table (Z.to_nat (Date.getHours now))).
  rewrite forallb_forall in table.
  specialize (table ltac:(apply in_seq; lia) (Z.to_nat (Date.getMinutes now))
                    ltac:(apply in_seq; lia)).
  rewrite !Z2Nat.id in table by lia.
  unfold Date.toTimeString5, currentMinutes in *. simpl in table.
  destruct (medicineMinutes _) as [v|]; [|discriminate].
  apply Z.eqb_eq in table. congruence.
Qed.

(* ================================================================== *)
(** * Further properties of the code *)

(* ------------------------------------------------------------------ *)
(** ** The headers' count and the upcoming list *)

Section HeaderCount.

Lemma header_countTime cur medicine acc time :
  Header.countTime cur acc time
  = acc + Z.of_nat (List.length (filter withinTwoHours
                                        (slotEntry cur medicine time))).
Proof.
  unfold Header.countTime, slotEntry, withinTwoHours.
  destruct (medicineMinutes time) as [mm|]; simpl; [|lia].
  destruct (mm >? cur) eqn:G; simpl; [|lia].
  replace (mm - cur <=? 120) with (mm <=? cur + 120)
    by (apply Bool.eq_true_iff_eq; rewrite !Z.leb_le; lia).
  destruct (mm <=? cur + 120); simpl; lia.
Qed.

Lemma header_fold_countTime cur medicine times acc :
  fold_left (Header.countTime cur) times acc
  = acc + Z.of_nat (List.length
                      (filter withinTwoHours
                              (flat_map (slotEntry cur medicine) times))).
Proof.
  revert acc; induction times as [|time rest IH]; intro acc; simpl; [lia|].
  rewrite IH, (header_countTime cur medicine), filter_app, length_app. lia.
Qed.

Lemma header_count_candidates medicines now :
  Header.getUpcomingDoses medicines now
  = Z.of_nat (List.length (filter withinTwoHours (candidates medicines now))).
Proof.
  unfold Header.getUpcomingDoses, candidates.
  generalize (currentMinutes now) as cur; intro cur.
  enough (H : forall acc,
             fold_left (Header.countMedicine cur) medicines acc
             = acc + Z.of_nat
                 (List.length
                    (filter withinTwoHours
                       (flat_map
                          (fun medicine =>
                             if as_needed medicine then []
                             else flat_map (slotEntry cur medicine)
                                           (Medicine.times medicine))
                          medicines))))
    by (rewrite H; lia).
  induction medicines as [|m rest IH]; intro acc; simpl; [lia|].
  rewrite IH, filter_app, length_app. unfold Header.countMedicine.
  destruct (as_needed m); simpl; [lia|].
  rewrite (header_fold_countTime cur m). lia.
Qed.

Lemma mobile_count_same medicines now :
  MobileHeader.getUpcomingCount medicines now
  = Header.getUpcomingDoses medicines now.
Proof. reflexivity. Qed.

Lemma filter_length_perm {A} (f : A -> bool) (l l' : list A) :
  Permutation l l' -> List.length (filter f l) = List.length (filter f l').
Proof.
  induction 1 as [|x l l' _ IH|x y l|l l' l'' _ IH1 _ IH2]; simpl.
  - reflexivity.
  - destruct (f x); simpl; congruence.
  - destruct (f x), (f y); reflexivity.
  - congruence.
Qed.

Lemma filter_firstn_length {A} (f : A -> bool) n (l : list A) :
  (List.length (filter f (firstn n l)) <= List.length (filter f l))%nat.
Proof.
  revert n; induction l as [|a l IH]; intros [|n]; simpl; try lia.
  specialize (IH n). destruct (f a); simpl; lia.
Qed.

Lemma filter_nonempty {A} (f : A -> bool) (l : list A) :
  (0 < List.length (filter f l))%nat <-> exists x, In x l /\ f x = true.
Proof.
  split.
  - intro H. destruct (filter f l) as [|x rest] eqn:E; [simpl in H; lia|].
    exists x. apply filter_In. rewrite E. left. reflexivity.
  - intros (x & Hx). apply filter_In in Hx.
    destruct (filter f l); [destruct Hx | simpl; lia].
Qed.

Lemma upcoming_entry_positive medicines now e :
  In e (getUpcomingMedicines medicines now) -> 0 < Upcoming.minutesUntil e.
Proof.
  unfold getUpcomingMedicines. intro He. apply slice0_In in He.
  eapply Permutation_in in He; [|apply sort_perm].
  rewrite collectUpcoming_candidates in He. apply in_candidates in He.
  destruct He as (m & time & mm & _ & _ & _ & _ & Hlt & ->). simpl. lia.
Qed.

(** The list of [getUpcomingMedicines] begins with an entry that is no later
    than any slot ahead. *)
Lemma upcoming_head_least medicines now x :
  In x (candidates medicines now) ->
  exists e rest,
    getUpcomingMedicines medicines now = e :: rest /\
    Upcoming.minutesUntil e <= Upcoming.minutesUntil x.
Proof.
  intro Hx. unfold getUpcomingMedicines, JS.slice0.
  rewrite collectUpcoming_candidates.
  pose proof (sort_perm (candidates medicines now)) as P.
  pose proof (sort_sorted (candidates medicines now)) as S.
  apply Permutation_sym in P. eapply Permutation_in in Hx; [|exact P].
  destruct (sortByMinutesUntil (candidates medicines now)) as [|e rest];
    [destruct Hx|].
  exists e, (firstn 2 rest). split; [reflexivity|].
  inversion S as [|? ? _ Hmin]; subst. rewrite Forall_forall in Hmin.
  destruct Hx as [->|Hx]; [lia|].
  specialize (Hmin _ Hx). unfold leMinutes in Hmin. exact Hmin.
Qed.

End HeaderCount.

(** X1: the number the two headers show as upcoming is the number of pairs of
    a medicine that is not as-needed and one of its slots whose minute of day
    is after now's and at most 120 minutes after it; it is at least the number
    of such entries in the list of [getUpcomingMedicines], which is cut to
    three. *)
Theorem header_counts_next_two_hours medicines now :
  Header.getUpcomingDoses medicines now
  = Z.of_nat (List.length (filter withinTwoHours (candidates medicines now))) /\
  MobileHeader.getUpcomingCount medicines now
  = Z.of_nat (List.length (filter withinTwoHours (candidates medicines now))) /\
  Z.of_nat (List.length (filter withinTwoHours
                                (getUpcomingMedicines medicines now)))
  <= Header.getUpcomingDoses medicines now.
Proof.
  split; [apply header_count_candidates|].
  split; [rewrite mobile_count_same; apply header_count_candidates|].
  rewrite header_count_candidates. unfold getUpcomingMedicines, JS.slice0.
  rewrite collectUpcoming_candidates.
  rewrite <- (filter_length_perm withinTwoHours _ _
                (sort_perm (candidates medicines now))).
  apply inj_le, filter_firstn_length.
Qed.

(** X2: the headers show their upcoming badge (count above zero) exactly when
    the list of [getUpcomingMedicines] begins with an entry that is at most
    two hours away. *)
Theorem header_badge_iff_first_upcoming medicines now :
  0 < Header.getUpcomingDoses medicines now <->
  exists e rest,
    getUpcomingMedicines medicines now = e :: rest /\
    Upcoming.minutesUntil e <= 120.
Proof.
  rewrite header_count_candidates.
  change 0 with (Z.of_nat 0). rewrite <- Nat2Z.inj_lt, filter_nonempty.
  unfold getUpcomingMedicines, JS.slice0. rewrite collectUpcoming_candidates.
  pose proof (sort_perm (candidates medicines now)) as P.
  pose proof (sort_sorted (candidates medicines now)) as S.
  destruct (sortByMinutesUntil (candidates medicines now)) as [|e rest].
  - split.
    + intros (x & Hx & _). apply Permutation_sym in P.
      eapply Permutation_in in Hx; [|exact P]. destruct Hx.
    + intros (e & rest & E & _). discriminate E.
  - inversion S as [|? ? _ Hmin]; subst. rewrite Forall_forall in Hmin.
    split.
    + intros (x & Hx & W). exists e, (firstn 2 rest). split; [reflexivity|].
      unfold withinTwoHours in W. apply Z.leb_le in W.
      apply Permutation_sym in P. eapply Permutation_in in Hx; [|exact P].
      destruct Hx as [->|Hx]; [exact W|].
      specialize (Hmin _ Hx). unfold leMinutes in Hmin. lia.
    + intros (e' & rest' & E & W). simpl in E. inversion E; subst.
      exists e'. split.
      * eapply Permutation_in; [exact P | left; reflexivity].
      * apply Z.leb_le. exact W.
Qed.

(** X3: the list of [getUpcomingMedicines] is empty, and the "No upcoming
    doses" card is shown, exactly when no slot of a medicine that is not
    as-needed has its minute of day after now's, however soon tomorrow's first
    dose is. *)
Theorem no_upcoming_iff_no_slot_left medicines now :
  (getUpcomingMedicines medicines now = [] <->
   forall medicine time mm,
     In medicine medicines -> as_needed medicine = false ->
     In time (Medicine.times medicine) ->
     medicineMinutes time = Some mm -> mm <= currentMinutes now) /\
  (AppView.showsNoUpcoming medicines now = true <->
   getUpcomingMedicines medicines now = []).
Proof.
  split.
  - unfold getUpcomingMedicines, JS.slice0. rewrite collectUpcoming_candidates.
    pose proof (sort_perm (candidates medicines now)) as P.
    split.
    + intros E m time mm Hm A Ht Hp.
      destruct (Z_le_gt_dec mm (currentMinutes now)) as [L|G]; [exact L|].
      exfalso.
      assert (Hin : In (Upcoming.mk m time (mm - currentMinutes now))
                       (candidates medicines now)).
      { apply in_candidates. exists m, time, mm.
        repeat split; try assumption. lia. }
      apply Permutation_sym in P. eapply Permutation_in in Hin; [|exact P].
      destruct (sortByMinutesUntil (candidates medicines now));
        [destruct Hin | discriminate E].
    + intro H.
      destruct (sortByMinutesUntil (candidates medicines now)) as [|e rest];
        [reflexivity|].
      exfalso.
      assert (Hin : In e (candidates medicines now))
        by (eapply Permutation_in; [exact P | left; reflexivity]).
      apply in_candidates in Hin.
      destruct Hin as (m & time & mm & Hm & A & Ht & Hp & Hlt & _).
      specialize (H m time mm Hm A Ht Hp). lia.
  - unfold AppView.showsNoUpcoming.
    destruct (getUpcomingMedicines medicines now); simpl; split;
      intro H; try reflexivity; discriminate H.
Qed.

(** X4: the upcoming tab shows every entry of [getUpcomingMedicines], at most
    three, in order; the label "in Xh Ym" of an entry splits its
    [minutesUntil] exactly: 60 X + Y is [minutesUntil], with X not negative
    and Y from 0 to 59. *)
Theorem upcoming_tab_labels medicines now :
  (List.length (getUpcomingMedicines medicines now) <= 3)%nat /\
  map (fun shown => fst (fst shown)) (AppView.upcomingTab medicines now)
  = getUpcomingMedicines medicines now /\
  forall item h m,
    In (item, h, m) (AppView.upcomingTab medicines now) ->
    60 * h + m = Upcoming.minutesUntil item /\ 0 <= h /\ 0 <= m < 60.
Proof.
  assert (L : (List.length (getUpcomingMedicines medicines now) <= 3)%nat).
  { unfold getUpcomingMedicines, JS.slice0. rewrite length_firstn. lia. }
  assert (E : JS.slice0 10 (getUpcomingMedicines medicines now)
              = getUpcomingMedicines medicines now).
  { unfold JS.slice0 at 1. apply firstn_all2. lia. }
  split; [exact L|]. unfold AppView.upcomingTab. rewrite E. split.
  - rewrite map_map. simpl. apply map_id.
  - intros item h m Hin. apply in_map_iff in Hin.
    destruct Hin as (e & Heq & He). inversion Heq; subst; clear Heq.
    pose proof (upcoming_entry_positive _ _ _ He) as Hpos.
    unfold AppView.inHours, AppView.inMinutes.
    rewrite Z.rem_mod_nonneg by lia.
    pose proof (Z.div_mod (Upcoming.minutesUntil item) 60 ltac:(lia)).
    pose proof (Z.mod_pos_bound (Upcoming.minutesUntil item) 60 ltac:(lia)).
    pose proof (Z.div_pos (Upcoming.minutesUntil item) 60 ltac:(lia) ltac:(lia)).
    lia.
Qed.

(* ------------------------------------------------------------------ *)
(** ** The card's next dose *)

Section NextDose.

Lemma gt_after t cur :
  JS.gt (medicineMinutes t) (Some cur) = true <->
  exists mm, medicineMinutes t = Some mm /\ cur < mm.
Proof.
  destruct (medicineMinutes t) as [mm|]; simpl.
  - rewrite Z.gtb_ltb, Z.ltb_lt. split.
    + intro H. exists mm. auto.
    + intros (mm' & E & H). inversion E; subst. exact H.
  - split; [discriminate | intros (? & E & _); discriminate].
Qed.

Lemma gt_not_after t cur mm :
  JS.gt (medicineMinutes t) (Some cur) = false ->
  medicineMinutes t = Some mm -> mm <= cur.
Proof.
  intros G E. rewrite E in G. simpl in G.
  rewrite Z.gtb_ltb in G. apply Z.ltb_ge in G. exact G.
Qed.

(** The loop stops at the first time after [cur], passing only times that
    are not. *)
Lemma firstAfter_some cur times t :
  MedicineCard.firstAfter cur times = Some t ->
  exists before after,
    times = before ++ t :: after /\
    JS.gt (medicineMinutes t) (Some cur) = true /\
    forall t', In t' before -> JS.gt (medicineMinutes t') (Some cur) = false.
Proof.
  induction times as [|a rest IH]; simpl; [discriminate|].
  destruct (JS.gt (medicineMinutes a) (Some cur)) eqn:G.
  - intro E. inversion E; subst. exists [], rest.
    repeat split; [exact G | intros t' []].
  - intro E. destruct (IH E) as (before & after & -> & Gt & Hb).
    exists (a :: before), after. repeat split; [exact Gt|].
    intros t' [<-|Hin]; [exact G | apply Hb, Hin].
Qed.

Lemma firstAfter_none cur times :
  MedicineCard.firstAfter cur times = None ->
  forall t, In t times -> JS.gt (medicineMinutes t) (Some cur) = false.
Proof.
  induction times as [|a rest IH]; simpl; [intros _ t []|].
  destruct (JS.gt (medicineMinutes a) (Some cur)) eqn:G; [discriminate|].
  intros E t [<-|Hin]; [exact G | apply IH; assumption].
Qed.

Lemma ascending_after before t after :
  ascendingTimes (before ++ t :: after) -> Forall (timeLe t) after.
Proof.
  unfold ascendingTimes. induction before as [|b before IH]; simpl; intro S;
    inversion S; subst; auto.
Qed.

Lemma firstAfter_head cur medicine times :
  MedicineCard.firstAfter cur times
  = option_map Upcoming.time (hd_error (flat_map (slotEntry cur medicine) times)).
Proof.
  induction times as [|a rest IH]; simpl; [reflexivity|].
  unfold slotEntry at 1.
  destruct (medicineMinutes a) as [mm|]; simpl; [|exact IH].
  destruct (mm >? cur); simpl; [reflexivity | exact IH].
Qed.

(** With ascending times, the first entry the slots contribute is not after
    any later one. *)
Lemma ascending_head_least cur medicine times x rest :
  ascendingTimes times ->
  flat_map (slotEntry cur medicine) times = x :: rest ->
  Forall (leMinutes x) rest.
Proof.
  unfold ascendingTimes. induction 1 as [|a ts S IH Ha]; simpl;
    [discriminate|].
  destruct (slotEntry cur medicine a) as [|y [|? ?]] eqn:E; simpl.
  - exact IH.
  - intro H. inversion H; subst; clear H.
    assert (Hy : In x (slotEntry cur medicine a))
      by (rewrite E; left; reflexivity).
    apply in_slotEntry in Hy. destruct Hy as (mm & Hmm & _ & ->).
    apply Forall_forall. intros e He.
    apply in_flat_map in He. destruct He as (t' & Ht' & He).
    apply in_slotEntry in He. destruct He as (mm' & Hmm' & _ & ->).
    rewrite Forall_forall in Ha. destruct (Ha _ Ht') as (p & q & Hp & Hq & L).
    unfold leMinutes; simpl. rewrite Hmm in Hp. rewrite Hmm' in Hq.
    inversion Hp; inversion Hq; subst. lia.
  - exfalso. unfold slotEntry in E.
    destruct (medicineMinutes a) as [mm|]; [|discriminate].
    destruct (mm >? cur); discriminate.
Qed.

Lemma sort_least_first x rest :
  Forall (leMinutes x) rest ->
  sortByMinutesUntil (x :: rest) = x :: sortByMinutesUntil rest.
Proof.
  intro H. simpl.
  assert (H' : Forall (leMinutes x) (sortByMinutesUntil rest))
    by (eapply Permutation_Forall; [apply Permutation_sym, sort_perm | exact H]).
  destruct (sortByMinutesUntil rest) as [|y r]; [reflexivity|].
  simpl. inversion H'; subst. unfold leMinutes in *.
  replace (Upcoming.minutesUntil x <=? Upcoming.minutesUntil y) with true
    by (symmetry; apply Z.leb_le; assumption).
  reflexivity.
Qed.

End NextDose.

(** X5: [getNextDose] gives no dose exactly for an as-needed medicine or a
    medicine without times; a dose it gives is one of the medicine's times. *)
Theorem next_dose_none_iff medicine now :
  (MedicineCard.getNextDose medicine now = None <->
   as_needed medicine = true \/ Medicine.times medicine = []) /\
  (forall t, MedicineCard.getNextDose medicine now = Some t ->
             In t (Medicine.times medicine)).
Proof.
  unfold MedicineCard.getNextDose.
  destruct (as_needed medicine) eqn:A.
  - split; [tauto | discriminate].
  - destruct (MedicineCard.firstAfter (currentMinutes now)
                                      (Medicine.times medicine)) as [t|] eqn:F.
    + apply firstAfter_some in F. destruct F as (before & after & E & _ & _).
      split.
      * split; [discriminate|]. intros [H|H]; [discriminate|].
        rewrite H in E. destruct before; discriminate.
      * intros t' H. inversion H; subst. rewrite E.
        apply in_or_app. right. left. reflexivity.
    + split.
      * destruct (Medicine.times medicine); simpl; split; auto;
          try discriminate.
        intros [H|H]; discriminate.
      * intros t H. eapply nth_error_In. exact H.
Qed.

(** X6: when the times of a medicine that is not as-needed are ascending by
    minute of day, the dose [getNextDose] gives is the earliest slot after
    now; when no slot is after now, it is the first time of the array, the
    earliest slot of the day. *)
Theorem next_dose_of_ascending_times medicine now t :
  as_needed medicine = false ->
  ascendingTimes (Medicine.times medicine) ->
  MedicineCard.getNextDose medicine now = Some t ->
  (exists mm,
     medicineMinutes t = Some mm /\ currentMinutes now < mm /\
     forall t' mm',
       In t' (Medicine.times medicine) -> medicineMinutes t' = Some mm' ->
       currentMinutes now < mm' -> mm <= mm')
  \/
  ((forall t' mm',
      In t' (Medicine.times medicine) -> medicineMinutes t' = Some mm' ->
      mm' <= currentMinutes now) /\
   nth_error (Medicine.times medicine) 0 = Some t /\
   forall t' mm mm',
     In t' (Medicine.times medicine) ->
     medicineMinutes t = Some mm -> medicineMinutes t' = Some mm' ->
     mm <= mm').
Proof.
  intros A S. unfold MedicineCard.getNextDose. rewrite A.
  destruct (MedicineCard.firstAfter (currentMinutes now)
                                    (Medicine.times medicine)) as [t0|] eqn:F.
  - intro E. inversion E; subst; clear E. left.
    apply firstAfter_some in F. destruct F as (before & after & E & G & Hb).
    apply gt_after in G. destruct G as (mm & Hmm & Hlt).
    exists mm. repeat split; try assumption.
    intros t' mm' Hin Hmm' Hlt'. rewrite E in Hin, S.
    apply in_app_or in Hin. destruct Hin as [Hin|[<-|Hin]].
    + pose proof (gt_not_after _ _ _ (Hb _ Hin) Hmm'). lia.
    + rewrite Hmm in Hmm'. inversion Hmm'. lia.
    + apply ascending_after in S. rewrite Forall_forall in S.
      destruct (S _ Hin) as (p & q & Hp & Hq & L).
      rewrite Hmm in Hp. rewrite Hmm' in Hq. inversion Hp; inversion Hq. lia.
  - intro E. right. split; [|split; [exact E|]].
    + intros t' mm' Hin Hmm'.
      exact (gt_not_after _ _ _ (firstAfter_none _ _ F _ Hin) Hmm').
    + intros t' mm mm' Hin Hmm Hmm'.
      destruct (Medicine.times medicine) as [|a rest]; [destruct Hin|].
      simpl in E. inversion E; subst a.
      destruct Hin as [<-|Hin].
      * rewrite Hmm in Hmm'. inversion Hmm'. lia.
      * unfold ascendingTimes in S. inversion S as [|? ? _ Ha]; subst.
        rewrite Forall_forall in Ha.
        destruct (Ha _ Hin) as (p & q & Hp & Hq & L).
        rewrite Hmm in Hp. rewrite Hmm' in Hq. inversion Hp; inversion Hq. lia.
Qed.

Lemma next_dose_of_ascending_times_witness :
  (exists mm,
     medicineMinutes "20:00" = Some mm /\ currentMinutes (clock 9 0 0) < mm /\
     forall t' mm',
       In t' (Medicine.times M1) -> medicineMinutes t' = Some mm' ->
       currentMinutes (clock 9 0 0) < mm' -> mm <= mm')
  \/
  ((forall t' mm',
      In t' (Medicine.times M1) -> medicineMinutes t' = Some mm' ->
      mm' <= currentMinutes (clock 9 0 0)) /\
   nth_error (Medicine.times M1) 0 = Some "20:00" /\
   forall t' mm mm',
     In t' (Medicine.times M1) ->
     medicineMinutes "20:00" = Some mm -> medicineMinutes t' = Some mm' ->
     mm <= mm').
Proof.
  apply (next_dose_of_ascending_times M1 (clock 9 0 0) "20:00").
  - reflexivity.
  - unfold ascendingTimes. simpl. repeat constructor.
    exists 480, 1200. repeat split; try reflexivity. lia.
  - reflexivity.
Defined.

(** X7: for a medicine that is not as-needed and whose times are ascending,
    the card and the projector agree: the next dose of the card is the slot
    of the first entry [getUpcomingMedicines] gives for that medicine alone;
    when the projector gives no entry, the card falls back to the first
    time of the array. *)
Theorem next_dose_is_first_upcoming medicine now :
  as_needed medicine = false ->
  ascendingTimes (Medicine.times medicine) ->
  match getUpcomingMedicines [medicine] now with
  | e :: _ =>
      MedicineCard.getNextDose medicine now = Some (Upcoming.time e) /\
      Upcoming.medicine e = medicine
  | [] =>
      MedicineCard.getNextDose medicine now
      = nth_error (Medicine.times medicine) 0
  end.
Proof.
  intros A S.
  unfold getUpcomingMedicines, JS.slice0, MedicineCard.getNextDose.
  rewrite collectUpcoming_candidates, A.
  unfold candidates. simpl. rewrite A, app_nil_r.
  rewrite (firstAfter_head (currentMinutes now) medicine).
  destruct (flat_map (slotEntry (currentMinutes now) medicine)
                     (Medicine.times medicine)) as [|x rest] eqn:C.
  - reflexivity.
  - rewrite (sort_least_first x rest)
      by (eapply ascending_head_least; eassumption).
    simpl. split; [reflexivity|].
    assert (Hx : In x (flat_map (slotEntry (currentMinutes now) medicine)
                                (Medicine.times medicine)))
      by (rewrite C; left; reflexivity).
    apply in_flat_map in Hx. destruct Hx as (t & _ & Hx).
    apply in_slotEntry in Hx. destruct Hx as (mm & _ & _ & ->). reflexivity.
Qed.

Lemma next_dose_is_first_upcoming_witness :
  match getUpcomingMedicines [M1] (clock 9 0 0) with
  | e :: _ =>
      MedicineCard.getNextDose M1 (clock 9 0 0) = Some (Upcoming.time e) /\
      Upcoming.medicine e = M1
  | [] =>
      MedicineCard.getNextDose M1 (clock 9 0 0)
      = nth_error (Medicine.times M1) 0
  end.
Proof.
  apply (next_dose_is_first_upcoming M1 (clock 9 0 0)).
  - reflexivity.
  - unfold ascendingTimes. simpl. repeat constructor.
    exists 480, 1200. repeat split; try reflexivity. lia.
Defined.

(* ------------------------------------------------------------------ *)
(** ** A slot through the day *)

Lemma isDueNow_eq now time mt :
  MedicineCard.medicineTime time = Some mt ->
  MedicineCard.isDueNow now time = (Z.abs (Date.getTime now - mt) <=? 900000).
Proof.
  intro E. apply Bool.eq_true_iff_eq. rewrite isDueNow_iff, Z.leb_le. split.
  - intros (mt' & E' & H). rewrite E in E'. inversion E'; subst. lia.
  - intro H. exists mt. split; [exact E | lia].
Qed.

(** X8: what the card reports for a slot that is not taken depends on the
    clock alone and passes through four phases: nothing until 15 minutes
    before the slot's time, "Due Now" from then to the slot's time, "Due Now"
    together with "Overdue" during the 15 minutes after it, and "Overdue"
    alone from then on. *)
Theorem untaken_slot_phases now takenTimes time mt :
  MedicineCard.medicineTime time = Some mt ->
  ~ In time takenTimes ->
  (Date.getTime now < mt - 900000 ->
   report (MedicineCard.renderRow now takenTimes time)
   = (time, false, false, false)) /\
  (mt - 900000 <= Date.getTime now <= mt ->
   report (MedicineCard.renderRow now takenTimes time)
   = (time, false, true, false)) /\
  (mt < Date.getTime now <= mt + 900000 ->
   report (MedicineCard.renderRow now takenTimes time)
   = (time, false, true, true)) /\
  (mt + 900000 < Date.getTime now ->
   report (MedicineCard.renderRow now takenTimes time)
   = (time, false, false, true)).
Proof.
  intros E T. apply includes_false in T.
  unfold report, MedicineCard.renderRow. simpl.
  unfold MedicineCard.isOverdue.
  rewrite (isDueNow_eq now time mt E), E, T. simpl.
  rewrite !andb_true_r, Z.gtb_ltb.
  repeat split; intro H.
  - replace (Z.abs (Date.getTime now - mt) <=? 900000) with false
      by (symmetry; apply Z.leb_gt; lia).
    replace (mt <? Date.getTime now) with false
      by (symmetry; apply Z.ltb_ge; lia).
    reflexivity.
  - replace (Z.abs (Date.getTime now - mt) <=? 900000) with true
      by (symmetry; apply Z.leb_le; lia).
    replace (mt <? Date.getTime now) with false
      by (symmetry; apply Z.ltb_ge; lia).
    reflexivity.
  - replace (Z.abs (Date.getTime now - mt) <=? 900000) with true
      by (symmetry; apply Z.leb_le; lia).
    replace (mt <? Date.getTime now) with true
      by (symmetry; apply Z.ltb_lt; lia).
    reflexivity.
  - replace (Z.abs (Date.getTime now - mt) <=? 900000) with false
      by (symmetry; apply Z.leb_gt; lia).
    replace (mt <? Date.getTime now) with true
      by (symmetry; apply Z.ltb_lt; lia).
    reflexivity.
Qed.

Lemma untaken_slot_phases_witness :
  (Date.getTime (clock 7 50 0) < 28800000 - 900000 ->
   report (MedicineCard.renderRow (clock 7 50 0) ["20:00"] "08:00")
   = ("08:00", false, false, false)) /\
  (28800000 - 900000 <= Date.getTime (clock 7 50 0) <= 28800000 ->
   report (MedicineCard.renderRow (clock 7 50 0) ["20:00"] "08:00")
   = ("08:00", false, true, false)) /\
  (28800000 < Date.getTime (clock 7 50 0) <= 28800000 + 900000 ->
   report (MedicineCard.renderRow (clock 7 50 0) ["20:00"] "08:00")
   = ("08:00", false, true, true)) /\
  (28800000 + 900000 < Date.getTime (clock 7 50 0) ->
   report (MedicineCard.renderRow (clock 7 50 0) ["20:00"] "08:00")
   = ("08:00", false, false, true)).
Proof.
  apply (untaken_slot_phases (clock 7 50 0) ["20:00"] "08:00" 28800000).
  - reflexivity.
  - intros [H|[]]. discriminate H.
Defined.

(* ------------------------------------------------------------------ *)
(** ** The collection, the log and the history *)

Section Collections.

Lemma find_filtered_out id medicines :
  JS.find (fun med => String.eqb (Medicine.id med) id)
          (filter (fun med => negb (String.eqb (Medicine.id med) id)) medicines)
  = None.
Proof.
  unfold JS.find. induction medicines as [|m rest IH]; simpl; [reflexivity|].
  destruct (String.eqb (Medicine.id m) id) eqn:E; simpl; [exact IH|].
  rewrite E. exact IH.
Qed.

Lemma recentActivity_firstn_rev n (l : list MedicineLog.t) :
  AppView.recentActivity n l = firstn n (rev l).
Proof.
  unfold AppView.recentActivity, AppView.sliceLast.
  symmetry. apply firstn_rev.
Qed.

Lemma todaysLog_app now meds l1 l2 :
  App.getTodaysLog now (App.mk meds (l1 ++ l2))
  = App.getTodaysLog now (App.mk meds l1)
    ++ App.getTodaysLog now (App.mk meds l2).
Proof. unfold App.getTodaysLog. simpl. apply filter_app. Qed.

End Collections.

(** X9: deleting the medicine that was just added gives back the collection
    as it was, when no other medicine carries that id; the log is not
    touched. *)
Theorem add_then_delete medicine app :
  (forall m, In m (App.medicines app) -> Medicine.id m <> Medicine.id medicine) ->
  App.handleDeleteMedicine (Medicine.id medicine)
                           (App.handleAddMedicine medicine app)
  = app.
Proof.
  intro H. destruct app as [meds log].
  unfold App.handleDeleteMedicine, App.handleAddMedicine. simpl in *.
  rewrite filter_app. simpl. rewrite String.eqb_refl. simpl.
  rewrite app_nil_r, filter_all; [reflexivity|].
  intros m Hm. apply negb_true_iff, String.eqb_neq, H, Hm.
Qed.

Lemma add_then_delete_witness :
  App.handleDeleteMedicine (Medicine.id M4)
                           (App.handleAddMedicine M4 (App.mk [M1; Munsorted] []))
  = App.mk [M1; Munsorted] [].
Proof.
  apply (add_then_delete M4 (App.mk [M1; Munsorted] [])).
  intros m [<-|[<-|[]]]; discriminate.
Defined.

(** X10: once a medicine is deleted, a take-action for its id is ignored: the
    collection and the log stay as the deletion left them, at whatever time
    the action comes. *)
Theorem take_after_delete_ignored now id time app :
  App.handleTakeMedicine now id time (App.handleDeleteMedicine id app)
  = App.handleDeleteMedicine id app.
Proof.
  unfold App.handleTakeMedicine. simpl.
  rewrite find_filtered_out. reflexivity.
Qed.

(** X11: a dose taken at [at_] for a known medicine is the last entry of
    today's log and the first line of the history tab and of the dashboard's
    activity list while the date is that of the take; at a clock reading of
    another date today's log does not hold it. *)
Theorem take_shows_first_in_history now at_ id time app medicine :
  JS.find (fun med => String.eqb (Medicine.id med) id) (App.medicines app)
  = Some medicine ->
  (Date.toISODate at_ = Date.toISODate now ->
   App.getTodaysLog now (App.handleTakeMedicine at_ id time app)
   = App.getTodaysLog now app
     ++ [MedicineLog.mk id (Medicine.name medicine) time
                        (Date.toTimeString5 at_) (Date.toISODate at_)] /\
   hd_error (AppView.historyTab now (App.handleTakeMedicine at_ id time app))
   = Some (MedicineLog.mk id (Medicine.name medicine) time
                          (Date.toTimeString5 at_) (Date.toISODate at_)) /\
   hd_error (AppView.todaysActivity now (App.handleTakeMedicine at_ id time app))
   = Some (MedicineLog.mk id (Medicine.name medicine) time
                          (Date.toTimeString5 at_) (Date.toISODate at_))) /\
  (Date.toISODate at_ <> Date.toISODate now ->
   App.getTodaysLog now (App.handleTakeMedicine at_ id time app)
   = App.getTodaysLog now app).
Proof.
  intro F. unfold App.handleTakeMedicine. rewrite F.
  destruct app as [meds log]. simpl App.medicines. simpl App.medicineLog.
  rewrite todaysLog_app. split.
  - intro D.
    assert (T : App.getTodaysLog now
                  (App.mk meds
                     [MedicineLog.mk id (Medicine.name medicine) time
                                     (Date.toTimeString5 at_)
                                     (Date.toISODate at_)])
                = [MedicineLog.mk id (Medicine.name medicine) time
                                  (Date.toTimeString5 at_)
                                  (Date.toISODate at_)]).
    { unfold App.getTodaysLog.
      cbn [App.medicineLog filter MedicineLog.date].
      rewrite D, String.eqb_refl. reflexivity. }
    split; [rewrite T; reflexivity|].
    unfold AppView.historyTab, AppView.todaysActivity.
    rewrite todaysLog_app, T, !recentActivity_firstn_rev, rev_app_distr.
    simpl. auto.
  - intro D. unfold App.getTodaysLog at 2.
    cbn [App.medicineLog filter MedicineLog.date].
    replace (Date.toISODate at_ =? Date.toISODate now)%string with false
      by (symmetry; apply String.eqb_neq; exact D).
    apply app_nil_r.
Qed.

Lemma take_shows_first_in_history_witness :
  (Date.toISODate (clock 8 5 0) = Date.toISODate (clock 9 0 0) ->
   App.getTodaysLog (clock 9 0 0)
     (App.handleTakeMedicine (clock 8 5 0) "1" "08:00" (App.mk [M1] []))
   = App.getTodaysLog (clock 9 0 0) (App.mk [M1] [])
     ++ [MedicineLog.mk "1" (Medicine.name M1) "08:00"
                        (Date.toTimeString5 (clock 8 5 0))
                        (Date.toISODate (clock 8 5 0))] /\
   hd_error (AppView.historyTab (clock 9 0 0)
               (App.handleTakeMedicine (clock 8 5 0) "1" "08:00"
                                       (App.mk [M1] [])))
   = Some (MedicineLog.mk "1" (Medicine.name M1) "08:00"
                          (Date.toTimeString5 (clock 8 5 0))
                          (Date.toISODate (clock 8 5 0))) /\
   hd_error (AppView.todaysActivity (clock 9 0 0)
               (App.handleTakeMedicine (clock 8 5 0) "1" "08:00"
                                       (App.mk [M1] [])))
   = Some (MedicineLog.mk "1" (Medicine.name M1) "08:00"
                          (Date.toTimeString5 (clock 8 5 0))
                          (Date.toISODate (clock 8 5 0)))) /\
  (Date.toISODate (clock 8 5 0) <> Date.toISODate (clock 9 0 0) ->
   App.getTodaysLog (clock 9 0 0)
     (App.handleTakeMedicine (clock 8 5 0) "1" "08:00" (App.mk [M1] []))
   = App.getTodaysLog (clock 9 0 0) (App.mk [M1] [])).
Proof.
  apply (take_shows_first_in_history (clock 9 0 0) (clock 8 5 0) "1" "08:00"
                                     (App.mk [M1] []) M1).
  reflexivity.
Defined.

(** X12: the history tab shows the ten most recent entries of today's log,
    the newest first, and the dashboard's activity list the five most recent;
    every line is an entry of the log dated today. *)
Theorem history_newest_first now app :
  AppView.historyTab now app = firstn 10 (rev (App.getTodaysLog now app)) /\
  AppView.todaysActivity now app = firstn 5 (rev (App.getTodaysLog now app)) /\
  forall entry,
    In entry (AppView.historyTab now app) ->
    In entry (App.medicineLog app) /\
    MedicineLog.date entry = Date.toISODate now.
Proof.
  unfold AppView.historyTab, AppView.todaysActivity.
  rewrite !recentActivity_firstn_rev. repeat split.
  - apply (slice0_In 10) in H. apply in_rev in H.
    unfold App.getTodaysLog in H. apply filter_In in H. tauto.
  - apply (slice0_In 10) in H. apply in_rev in H.
    unfold App.getTodaysLog in H. apply filter_In in H.
    destruct H as (_ & E). apply String.eqb_eq in E. exact E.
Qed.

(* ------------------------------------------------------------------ *)
(** ** The notification engine over a session: dismissal and silence *)

Section Dismissal.

Import NotificationAlert.

Lemma check_keeps_dismissed medicines now st :
  dismissedNotifications (fst (checkForDueMedicines medicines now st))
  = dismissedNotifications st.
Proof.
  unfold checkForDueMedicines. destruct (_ && _ && _); reflexivity.
Qed.

Lemma step_keeps_dismissed canVibrate st ev id :
  In id (dismissedNotifications st) ->
  In id (dismissedNotifications (fst (step canVibrate st ev))).
Proof.
  intro H. destruct ev as [medicines now|n|n| |]; simpl.
  - rewrite check_keeps_dismissed. exact H.
  - apply in_or_app. left. exact H.
  - apply in_or_app. left. exact H.
  - exact H.
  - exact H.
Qed.

Lemma dismissed_not_due medicines now st id :
  In id (dismissedNotifications st) ->
  ~ In id (dueIds (fst (checkForDueMedicines medicines now st))).
Proof.
  intros D Hin. unfold dueIds in Hin.
  rewrite check_dueNotifications in Hin. apply in_map_iff in Hin.
  destruct Hin as (n & <- & Hn). apply in_newDueNotifications in Hn.
  destruct Hn as (m & time & _ & (_ & _ & _ & N) & ->). simpl in D.
  exact (N D).
Qed.

Lemma dismissed_for_the_session canVibrate st evs id :
  In id (dismissedNotifications st) ->
  Forall (fun '(before, ev, fx) =>
            forall medicines now,
              ev = Tick medicines now ->
              ~ In id (dueIds (fst (checkForDueMedicines medicines now before))))
         (run canVibrate st evs).
Proof.
  revert st. induction evs as [|ev rest IH]; intros st D; simpl;
    [constructor|].
  pose proof (step_keeps_dismissed canVibrate st ev id D) as D'.
  destruct (step canVibrate st ev) as [st' fx]. simpl in D'.
  constructor; [|apply IH; exact D'].
  intros medicines now _. apply dismissed_not_due. exact D.
Qed.

End Dismissal.

(** X13: a notification that was dismissed, or marked as taken, is not shown
    again for as long as the alert component lives: whatever happens to it
    afterwards, no later evaluation of the engine puts its id into the due
    set, even while the slot is still within its five minutes. *)
Theorem dismissed_never_shown_again canVibrate st n evs :
  Forall (fun '(before, ev, fx) =>
            forall medicines now,
              ev = NotificationAlert.Tick medicines now ->
              ~ In (DueNotification.id n)
                   (dueIds (fst (NotificationAlert.checkForDueMedicines
                                   medicines now before))))
         (NotificationAlert.run canVibrate
            (fst (NotificationAlert.handleDismiss n st)) evs) /\
  Forall (fun '(before, ev, fx) =>
            forall medicines now,
              ev = NotificationAlert.Tick medicines now ->
              ~ In (DueNotification.id n)
                   (dueIds (fst (NotificationAlert.checkForDueMedicines
                                   medicines now before))))
         (NotificationAlert.run canVibrate
            (fst (NotificationAlert.handleTakeMedicine canVibrate n st)) evs).
Proof.
  split; apply dismissed_for_the_session; simpl; apply in_or_app; right;
    left; reflexivity.
Qed.

(** X14: while sound is off an evaluation plays nothing and records nothing
    as played; so when sound is switched on again, the next evaluation rings
    exactly when its due set holds an id that had not rung before the
    silence. *)
Theorem silence_defers_the_alarm medicines now st :
  NotificationAlert.soundEnabled st = false ->
  snd (NotificationAlert.checkForDueMedicines medicines now st) = [] /\
  NotificationAlert.hasPlayedSound
    (fst (NotificationAlert.checkForDueMedicines medicines now st))
  = NotificationAlert.hasPlayedSound st /\
  forall medicines' now',
    NotificationAlert.alarms
      (snd (NotificationAlert.checkForDueMedicines medicines' now'
              (fst (NotificationAlert.toggleSound
                      (fst (NotificationAlert.checkForDueMedicines
                              medicines now st))))))
    = 1%nat
    <->
    exists id,
      In id (dueIds
               (fst (NotificationAlert.checkForDueMedicines medicines' now'
                       (fst (NotificationAlert.toggleSound
                               (fst (NotificationAlert.checkForDueMedicines
                                       medicines now st))))))) /\
      ~ In id (NotificationAlert.hasPlayedSound st).
Proof.
  intro S.
  assert (E : NotificationAlert.checkForDueMedicines medicines now st
              = (NotificationAlert.mk
                   (NotificationAlert.newDueNotifications
                      medicines now (NotificationAlert.dismissedNotifications st))
                   (NotificationAlert.dismissedNotifications st) false
                   (NotificationAlert.hasPlayedSound st), [])).
  { unfold NotificationAlert.checkForDueMedicines. rewrite S. reflexivity. }
  rewrite E. simpl. repeat split.
  - intro A. unfold dueIds.
    match goal with
    | |- context [NotificationAlert.checkForDueMedicines ?m ?n ?s] =>
        destruct (check_outcome m n s) as [(_ & F & E')|(N & E')];
          rewrite E' in *; simpl in *
    end.
    + exact F.
    + discriminate A.
  - intros (id & Hin & Hfresh). unfold dueIds in Hin.
    match goal with
    | |- context [NotificationAlert.checkForDueMedicines ?m ?n ?s] =>
        destruct (check_outcome m n s) as [(_ & F & E')|(N & E')];
          rewrite E' in *; simpl in *
    end.
    + reflexivity.
    + exfalso. apply N. split; [reflexivity|]. exists id. auto.
Qed.

Lemma silence_defers_the_alarm_witness :
  snd (NotificationAlert.checkForDueMedicines
         [M1] (clock 8 0 0) (NotificationAlert.mk [] [] false [])) = [] /\
  NotificationAlert.hasPlayedSound
    (fst (NotificationAlert.checkForDueMedicines
            [M1] (clock 8 0 0) (NotificationAlert.mk [] [] false [])))
  = NotificationAlert.hasPlayedSound (NotificationAlert.mk [] [] false []) /\
  forall medicines' now',
    NotificationAlert.alarms
      (snd (NotificationAlert.checkForDueMedicines medicines' now'
              (fst (NotificationAlert.toggleSound
                      (fst (NotificationAlert.checkForDueMedicines
                              [M1] (clock 8 0 0)
                              (NotificationAlert.mk [] [] false []))))))) 
    = 1%nat
    <->
    exists id,
      In id (dueIds
               (fst (NotificationAlert.checkForDueMedicines medicines' now'
                       (fst (NotificationAlert.toggleSound
                               (fst (NotificationAlert.checkForDueMedicines
                                       [M1] (clock 8 0 0)
                                       (NotificationAlert.mk [] [] false []))))))))
      /\
      ~ In id (NotificationAlert.hasPlayedSound
                 (NotificationAlert.mk [] [] false [])).
Proof.
  apply (silence_defers_the_alarm [M1] (clock 8 0 0)
                                  (NotificationAlert.mk [] [] false [])).
  reflexivity.
Defined.

(* ------------------------------------------------------------------ *)
(** ** The page: take-actions and deletion across the components *)

Section Page.

Lemma tick_step canVibrate s now :
  Session.step canVibrate s (Session.Tick now)
  = Session.mk (Session.app s) (Session.takenTimes s)
      (fst (NotificationAlert.checkForDueMedicines
              (App.medicines (Session.app s)) now (Session.alert s))).
Proof.
  unfold Session.step, Session.alertStep. cbn [NotificationAlert.step].
  destruct (check_outcome (App.medicines (Session.app s)) now (Session.alert s))
    as [(_ & _ & E)|(_ & E)]; rewrite E; reflexivity.
Qed.

Lemma alert_take_step canVibrate s n at_ :
  Session.step canVibrate s (Session.AlertTake n at_)
  = Session.mk
      (App.handleTakeMedicine at_ (Medicine.id (DueNotification.medicine n))
                              (DueNotification.time n) (Session.app s))
      (Session.takenTimes s)
      (fst (NotificationAlert.handleTakeMedicine canVibrate n (Session.alert s))).
Proof.
  unfold Session.step, Session.alertStep. cbn [NotificationAlert.step].
  unfold NotificationAlert.handleTakeMedicine.
  destruct (NotificationAlert.soundEnabled (Session.alert s)), canVibrate;
    reflexivity.
Qed.

Lemma find_by_id_some id medicines m :
  In m medicines -> Medicine.id m = id ->
  exists medicine,
    JS.find (fun med => String.eqb (Medicine.id med) id) medicines
    = Some medicine /\
    In medicine medicines /\ Medicine.id medicine = id.
Proof.
  intros Hin E. unfold JS.find.
  destruct (find _ medicines) as [medicine|] eqn:F.
  - apply find_some in F. destruct F as (Hin' & E').
    apply String.eqb_eq in E'. exists medicine. auto.
  - pose proof (find_none _ _ F m Hin) as N. simpl in N.
    apply String.eqb_neq in N. contradiction.
Qed.

End Page.

(** X15: marking as taken a notification the engine has just put on display
    appends exactly one entry to the adherence log, for the notification's
    medicine id and slot, with the name of a medicine of the collection that
    carries this id; it dismisses the notification and leaves the taken-sets
    of all cards as they were. *)
Theorem alert_take_logs_the_dose canVibrate s now at_ n :
  In n (NotificationAlert.dueNotifications
          (Session.alert (Session.step canVibrate s (Session.Tick now)))) ->
  exists medicine,
    In medicine (App.medicines (Session.app s)) /\
    Medicine.id medicine = Medicine.id (DueNotification.medicine n) /\
    Session.app
      (Session.step canVibrate (Session.step canVibrate s (Session.Tick now))
                    (Session.AlertTake n at_))
    = App.mk (App.medicines (Session.app s))
             (App.medicineLog (Session.app s)
              ++ [MedicineLog.mk (Medicine.id (DueNotification.medicine n))
                                 (Medicine.name medicine)
                                 (DueNotification.time n)
                                 (Date.toTimeString5 at_)
                                 (Date.toISODate at_)]) /\
    In (DueNotification.id n)
       (NotificationAlert.dismissedNotifications
          (Session.alert
             (Session.step canVibrate
                (Session.step canVibrate s (Session.Tick now))
                (Session.AlertTake n at_)))) /\
    Session.takenTimes
      (Session.step canVibrate (Session.step canVibrate s (Session.Tick now))
                    (Session.AlertTake n at_))
    = Session.takenTimes s.
Proof.
  rewrite alert_take_step, tick_step. cbn [Session.alert Session.app Session.takenTimes].
  intro Hn. rewrite check_dueNotifications in Hn.
  apply in_newDueNotifications in Hn.
  destruct Hn as (m & time & Hm & _ & ->). cbn [DueNotification.medicine DueNotification.time DueNotification.id].
  destruct (find_by_id_some (Medicine.id m) _ m Hm eq_refl)
    as (medicine & F & Hin & E).
  exists medicine. split; [exact Hin|]. split; [exact E|].
  split; [|split; [|reflexivity]].
  - unfold App.handleTakeMedicine. rewrite F. reflexivity.
  - cbn [fst NotificationAlert.handleTakeMedicine
             NotificationAlert.dismissedNotifications DueNotification.id].
    apply in_or_app. right. left. reflexivity.
Qed.

Lemma alert_take_logs_the_dose_witness :
  exists medicine,
    In medicine (App.medicines (Session.app
                   (Session.step true Session.initial (Session.AddMedicine M1)))) /\
    Medicine.id medicine = Medicine.id (DueNotification.medicine notification0800) /\
    Session.app
      (Session.step true
         (Session.step true
            (Session.step true Session.initial (Session.AddMedicine M1))
            (Session.Tick (clock 8 3 0)))
         (Session.AlertTake notification0800 (clock 8 4 0)))
    = App.mk (App.medicines (Session.app
                (Session.step true Session.initial (Session.AddMedicine M1))))
             (App.medicineLog (Session.app
                (Session.step true Session.initial (Session.AddMedicine M1)))
              ++ [MedicineLog.mk
                    (Medicine.id (DueNotification.medicine notification0800))
                    (Medicine.name medicine)
                    (DueNotification.time notification0800)
                    (Date.toTimeString5 (clock 8 4 0))
                    (Date.toISODate (clock 8 4 0))]) /\
    In (DueNotification.id notification0800)
       (NotificationAlert.dismissedNotifications
          (Session.alert
             (Session.step true
                (Session.step true
                   (Session.step true Session.initial (Session.AddMedicine M1))
                   (Session.Tick (clock 8 3 0)))
                (Session.AlertTake notification0800 (clock 8 4 0))))) /\
    Session.takenTimes
      (Session.step true
         (Session.step true
            (Session.step true Session.initial (Session.AddMedicine M1))
            (Session.Tick (clock 8 3 0)))
         (Session.AlertTake notification0800 (clock 8 4 0)))
    = Session.takenTimes
        (Session.step true Session.initial (Session.AddMedicine M1)).
Proof.
  apply (alert_take_logs_the_dose true
           (Session.step true Session.initial (Session.AddMedicine M1))
           (clock 8 3 0) (clock 8 4 0) notification0800).
  vm_compute. left. reflexivity.
Defined.

(** X16: a take-action for the same medicine id and slot changes the App's
    collections in the same way from the card and from a notification: the
    same log entry, or nothing when the id is unknown.  The two differ in
    what else they record: the notification's take leaves every card's
    taken-set as it was, the card's take leaves the alert's state as it
    was. *)
Theorem card_and_alert_log_alike canVibrate s n at_ :
  Session.app
    (Session.step canVibrate s
       (Session.CardTake (Medicine.id (DueNotification.medicine n))
                         (DueNotification.time n) at_))
  = Session.app (Session.step canVibrate s (Session.AlertTake n at_)) /\
  Session.takenTimes (Session.step canVibrate s (Session.AlertTake n at_))
  = Session.takenTimes s /\
  Session.alert
    (Session.step canVibrate s
       (Session.CardTake (Medicine.id (DueNotification.medicine n))
                         (DueNotification.time n) at_))
  = Session.alert s.
Proof.
  rewrite alert_take_step. cbn [Session.app Session.takenTimes].
  unfold Session.step, App.handleTakeMedicine.
  destruct (JS.find _ (App.medicines (Session.app s))) as [medicine|] eqn:F.
  - cbn [Session.app Session.alert].
    pose proof F as F'. unfold JS.find in F'. apply find_some in F'.
    destruct F' as (_ & E). apply String.eqb_eq in E.
    rewrite E, F. auto.
  - auto.
Qed.

(** X17: after a medicine is deleted, no later evaluation of the engine shows
    a notification for that id and the projector gives no entry for it; its
    card is gone with its taken-set, and the log is as before. *)
Theorem deleted_medicine_leaves_projections canVibrate s id now :
  (forall n,
     In n (NotificationAlert.dueNotifications
             (Session.alert
                (Session.step canVibrate
                   (Session.step canVibrate s (Session.DeleteMedicine id))
                   (Session.Tick now)))) ->
     Medicine.id (DueNotification.medicine n) <> id) /\
  (forall e,
     In e (getUpcomingMedicines
             (App.medicines
                (Session.app
                   (Session.step canVibrate s (Session.DeleteMedicine id))))
             now) ->
     Medicine.id (Upcoming.medicine e) <> id) /\
  Session.takenTimes (Session.step canVibrate s (Session.DeleteMedicine id)) id
  = [] /\
  App.medicineLog
    (Session.app (Session.step canVibrate s (Session.DeleteMedicine id)))
  = App.medicineLog (Session.app s).
Proof.
  assert (K : forall m,
             In m (App.medicines
                     (Session.app
                        (Session.step canVibrate s (Session.DeleteMedicine id)))) ->
             Medicine.id m <> id).
  { intros m Hm. simpl in Hm. apply filter_In in Hm. destruct Hm as (_ & E).
    apply negb_true_iff, String.eqb_neq in E. exact E. }
  split; [|split; [|split]].
  - intros n Hn. rewrite tick_step in Hn. cbn [Session.alert] in Hn.
    rewrite check_dueNotifications in Hn. apply in_newDueNotifications in Hn.
    destruct Hn as (m & time & Hm & _ & ->). simpl DueNotification.medicine.
    apply K, Hm.
  - intros e He. unfold getUpcomingMedicines in He. apply slice0_In in He.
    eapply Permutation_in in He; [|apply sort_perm].
    rewrite collectUpcoming_candidates in He. apply in_candidates in He.
    destruct He as (m & time & mm & Hm & _ & _ & _ & _ & ->).
    simpl Upcoming.medicine. apply K, Hm.
  - simpl. unfold Session.setTakenTimes. rewrite String.eqb_refl. reflexivity.
  - reflexivity.
Qed.

(* ------------------------------------------------------------------ *)
(** ** The form: what is accepted *)

Section Form.

Lemma falsy_iff s : MedicineForm.falsy s = true <-> s = "".
Proof. unfold MedicineForm.falsy. apply String.eqb_eq. Qed.

Lemma some_falsy_iff times :
  existsb MedicineForm.falsy times = true <-> In "" times.
Proof.
  rewrite existsb_exists. split.
  - intros (t & Hin & E). apply falsy_iff in E. subst. exact Hin.
  - intro H. exists "". split; [exact H | reflexivity].
Qed.

Lemma orUndefined_not_empty s : MedicineForm.orUndefined s <> Some "".
Proof.
  unfold MedicineForm.orUndefined. destruct (MedicineForm.falsy s) eqn:E.
  - discriminate.
  - intro H. inversion H; subst. discriminate E.
Qed.

Lemma assign_length index time times newTimes :
  MedicineFormInput.assign index time times = Some newTimes ->
  List.length newTimes = List.length times.
Proof.
  revert index newTimes. induction times as [|t rest IH];
    intros [|i] newTimes; simpl; try discriminate.
  - intro E. inversion E. reflexivity.
  - destruct (MedicineFormInput.assign i time rest) as [r|] eqn:A;
      [|discriminate].
    intro E. inversion E; subst. simpl. rewrite (IH i r A). reflexivity.
Qed.

(** A frequency the form offers other than as-needed has at least one
    slot. *)
Lemma slotCount_positive frequency n :
  FormSession.slotCount frequency = Some n ->
  frequency <> "as-needed" -> 0 < n.
Proof.
  unfold FormSession.slotCount, JS.find, MedicineFormInput.frequencyOptions.
  cbn [List.find FrequencyOption.value].
  repeat
    match goal with
    | |- context [String.eqb ?a frequency] =>
        destruct (String.eqb a frequency) eqn:?;
          cbn [option_map FrequencyOption.times]
    end;
    intros E N; inversion E; subst; try lia.
  exfalso. apply N. symmetry. apply String.eqb_eq. assumption.
Qed.

Lemma offered_has_slotCount frequency :
  In frequency (map FrequencyOption.value MedicineFormInput.frequencyOptions) ->
  exists n, FormSession.slotCount frequency = Some n.
Proof.
  simpl. intros [<-|[<-|[<-|[<-|[<-|[]]]]]]; eexists; reflexivity.
Qed.

Lemma frequencyChange_invariant frequency form :
  In frequency (map FrequencyOption.value MedicineFormInput.frequencyOptions) ->
  formInvariant (MedicineFormInput.handleFrequencyChange frequency form).
Proof.
  simpl. intros [<-|[<-|[<-|[<-|[<-|[]]]]]]; right; eexists;
    (split; [reflexivity | intro P; first [reflexivity | simpl in P; lia]]).
Qed.

End Form.

Section FormRun.

Lemma step_invariant form ev form' :
  FormSession.offered ev -> formInvariant form ->
  FormSession.step form ev = Some form' -> formInvariant form'.
Proof.
  intros O I.
  destruct ev as [v|v|frequency|index time|v|v|v|color];
    cbn [FormSession.step]; intro E;
    try (inversion E; subst; clear E; exact I).
  - inversion E; subst. apply frequencyChange_invariant. exact O.
  - destruct (MedicineFormInput.showsTimes form); [|discriminate].
    unfold MedicineFormInput.handleTimeChange in E.
    destruct (MedicineFormInput.assign index time (MedicineForm.times form))
      as [newTimes|] eqn:A; [|discriminate].
    simpl in E. inversion E; subst; clear E.
    apply assign_length in A.
    unfold formInvariant in *. cbn [MedicineForm.formData MedicineForm.times].
    rewrite A. exact I.
Qed.

Lemma run_invariant evs form form' :
  Forall FormSession.offered evs -> formInvariant form ->
  FormSession.run form evs = Some form' -> formInvariant form'.
Proof.
  revert form. induction evs as [|ev rest IH]; intros form O I; simpl.
  - intro E. inversion E; subst. exact I.
  - inversion O; subst.
    destruct (FormSession.step form ev) as [form1|] eqn:S; [|discriminate].
    apply IH; [assumption|]. eapply step_invariant; eassumption.
Qed.

(** What an accepted form gives. *)
Lemma submit_accepts dateNow form m :
  MedicineForm.handleSubmit dateNow form = Some m ->
  Medicine.frequency m = MedicineForm.frequency (MedicineForm.formData form) /\
  Medicine.frequency m <> "" /\
  (as_needed m = true -> Medicine.times m = []) /\
  (as_needed m = false ->
   Medicine.times m = MedicineForm.times form /\ ~ In "" (Medicine.times m)).
Proof.
  unfold MedicineForm.handleSubmit.
  destruct (MedicineForm.falsy (MedicineForm.name (MedicineForm.formData form)));
    cbn [orb]; [discriminate|].
  destruct (MedicineForm.falsy (MedicineForm.dosage (MedicineForm.formData form)));
    cbn [orb]; [discriminate|].
  destruct (MedicineForm.falsy
              (MedicineForm.frequency (MedicineForm.formData form)))
    eqn:F; cbn [orb]; [discriminate|].
  destruct (String.eqb (MedicineForm.frequency (MedicineForm.formData form))
                       "as-needed") eqn:A; cbn [negb andb].
  - intro E. inversion E; subst; clear E. unfold as_needed.
    cbn [Medicine.frequency Medicine.times]. rewrite A.
    split; [reflexivity|].
    split; [intro H; apply falsy_iff in H; congruence|].
    split; [reflexivity | discriminate].
  - destruct (existsb MedicineForm.falsy (MedicineForm.times form)) eqn:T;
      [discriminate|].
    intro E. inversion E; subst; clear E. unfold as_needed.
    cbn [Medicine.frequency Medicine.times]. rewrite A.
    split; [reflexivity|].
    split; [intro H; apply falsy_iff in H; congruence|].
    split; [discriminate|].
    intros _. split; [reflexivity|].
    intro H. apply some_falsy_iff in H. congruence.
Qed.

(** When the form is refused. *)
Lemma submit_rejects dateNow form :
  MedicineForm.name (MedicineForm.formData form) = "" \/
  MedicineForm.dosage (MedicineForm.formData form) = "" \/
  MedicineForm.frequency (MedicineForm.formData form) = "" \/
  (MedicineForm.frequency (MedicineForm.formData form) <> "as-needed" /\
   In "" (MedicineForm.times form)) <->
  MedicineForm.handleSubmit dateNow form = None.
Proof.
  unfold MedicineForm.handleSubmit.
  destruct (MedicineForm.falsy (MedicineForm.name (MedicineForm.formData form)))
    eqn:N; cbn [orb]; [apply falsy_iff in N; tauto|].
  destruct (MedicineForm.falsy (MedicineForm.dosage (MedicineForm.formData form)))
    eqn:D; cbn [orb]; [apply falsy_iff in D; tauto|].
  destruct (MedicineForm.falsy
              (MedicineForm.frequency (MedicineForm.formData form)))
    eqn:F; cbn [orb]; [apply falsy_iff in F; tauto|].
  assert (N' : MedicineForm.name (MedicineForm.formData form) <> "")
    by (intro H; apply falsy_iff in H; congruence).
  assert (D' : MedicineForm.dosage (MedicineForm.formData form) <> "")
    by (intro H; apply falsy_iff in H; congruence).
  assert (F' : MedicineForm.frequency (MedicineForm.formData form) <> "")
    by (intro H; apply falsy_iff in H; congruence).
  destruct (String.eqb (MedicineForm.frequency (MedicineForm.formData form))
                       "as-needed") eqn:A; cbn [negb andb].
  - apply String.eqb_eq in A. split; [|discriminate].
    intros [H|[H|[H|(H & _)]]]; contradiction.
  - destruct (existsb MedicineForm.falsy (MedicineForm.times form)) eqn:T.
    + apply some_falsy_iff in T. apply String.eqb_neq in A. tauto.
    + split; [|discriminate].
      intros [H|[H|[H|(_ & H)]]]; try contradiction.
      apply some_falsy_iff in H. congruence.
Qed.

End FormRun.

(** X18: the form refuses to build a medicine exactly when the name, the
    dosage or the frequency is empty, or the frequency is not as-needed and
    one of the time fields is empty.  A medicine it builds carries the given
    id, a name, a dosage and a frequency that are not empty; as-needed it has
    no times, otherwise the times of the form, none of them empty; an end
    date or notes left empty are absent rather than empty. *)
Theorem submit_rejects_iff dateNow form :
  (MedicineForm.handleSubmit dateNow form = None <->
   MedicineForm.name (MedicineForm.formData form) = "" \/
   MedicineForm.dosage (MedicineForm.formData form) = "" \/
   MedicineForm.frequency (MedicineForm.formData form) = "" \/
   (MedicineForm.frequency (MedicineForm.formData form) <> "as-needed" /\
    In "" (MedicineForm.times form))) /\
  (forall m,
     MedicineForm.handleSubmit dateNow form = Some m ->
     Medicine.id m = dateNow /\
     Medicine.name m <> "" /\ Medicine.dosage m <> "" /\
     Medicine.frequency m <> "" /\
     (as_needed m = true -> Medicine.times m = []) /\
     (as_needed m = false ->
      Medicine.times m = MedicineForm.times form /\
      ~ In "" (Medicine.times m)) /\
     Medicine.endDate m <> Some "" /\ Medicine.notes m <> Some "").
Proof.
  unfold MedicineForm.handleSubmit.
  destruct (MedicineForm.falsy (MedicineForm.name (MedicineForm.formData form)))
    eqn:N; cbn [orb].
  { apply falsy_iff in N. split; [tauto | discriminate]. }
  destruct (MedicineForm.falsy (MedicineForm.dosage (MedicineForm.formData form)))
    eqn:D; cbn [orb].
  { apply falsy_iff in D. split; [tauto | discriminate]. }
  destruct (MedicineForm.falsy
              (MedicineForm.frequency (MedicineForm.formData form)))
    eqn:F; cbn [orb].
  { apply falsy_iff in F. split; [tauto | discriminate]. }
  assert (N' : MedicineForm.name (MedicineForm.formData form) <> "")
    by (intro H; apply falsy_iff in H; congruence).
  assert (D' : MedicineForm.dosage (MedicineForm.formData form) <> "")
    by (intro H; apply falsy_iff in H; congruence).
  assert (F' : MedicineForm.frequency (MedicineForm.formData form) <> "")
    by (intro H; apply falsy_iff in H; congruence).
  destruct (String.eqb (MedicineForm.frequency (MedicineForm.formData form))
                       "as-needed") eqn:A; cbn [negb andb].
  - pose proof A as A'. apply String.eqb_eq in A'. split.
    + split; [discriminate|]. intros [H|[H|[H|(H & _)]]]; contradiction.
    + intros m E. inversion E; subst; clear E. unfold as_needed.
      cbn [Medicine.id Medicine.name Medicine.dosage Medicine.frequency
           Medicine.times Medicine.endDate Medicine.notes].
      rewrite A.
      split; [reflexivity|]. split; [exact N'|]. split; [exact D'|].
      split; [exact F'|]. split; [reflexivity|]. split; [discriminate|].
      split; apply orUndefined_not_empty.
  - apply String.eqb_neq in A.
    destruct (existsb MedicineForm.falsy (MedicineForm.times form)) eqn:T.
    + apply some_falsy_iff in T. split; [tauto | discriminate].
    + assert (T' : ~ In "" (MedicineForm.times form))
        by (intro H; apply some_falsy_iff in H; congruence).
      split.
      * split; [discriminate|]. intros [H|[H|[H|(_ & H)]]]; contradiction.
      * intros m E. inversion E; subst; clear E. unfold as_needed.
        cbn [Medicine.id Medicine.name Medicine.dosage Medicine.frequency
             Medicine.times Medicine.endDate Medicine.notes].
        split; [reflexivity|]. split; [exact N'|]. split; [exact D'|].
        split; [exact F'|].
        split; [intro H; apply String.eqb_eq in H; contradiction|].
        split; [intros _; split; [reflexivity | exact T']|].
        split; apply orUndefined_not_empty.
Qed.

(** X19: a medicine built by the form has as many times as its frequency has
    daily slots, none of them empty: whatever the user typed, chose and
    changed before submitting, a once-daily medicine has one time, a
    twice-daily one two, and so on, and an as-needed one none. *)
Theorem submitted_times_match_frequency today evs form dateNow m :
  Forall FormSession.offered evs ->
  FormSession.run (FormSession.initial today) evs = Some form ->
  MedicineForm.handleSubmit dateNow form = Some m ->
  exists n,
    FormSession.slotCount (Medicine.frequency m) = Some n /\
    Z.of_nat (List.length (Medicine.times m)) = n /\
    ~ In "" (Medicine.times m).
Proof.
  intros O R E.
  assert (I : formInvariant form).
  { eapply run_invariant; [exact O | | exact R]. left. reflexivity. }
  destruct (submit_accepts dateNow form m E) as (Hf & Hne & Has & Hnot).
  destruct I as [I|(n & Hn & Hlen)]; [congruence|].
  rewrite <- Hf in Hn.
  destruct (as_needed m) eqn:A.
  - rewrite (Has eq_refl). unfold as_needed in A. apply String.eqb_eq in A.
    rewrite A in Hn. exists n. split; [rewrite A; exact Hn|].
    vm_compute in Hn. inversion Hn. split; [reflexivity | intros []].
  - destruct (Hnot eq_refl) as (Ht & Hno). exists n.
    split; [exact Hn|]. split; [|exact Hno].
    rewrite Ht. apply Hlen. eapply slotCount_positive; [exact Hn|].
    unfold as_needed in A. apply String.eqb_neq in A. exact A.
Qed.

Lemma submitted_times_match_frequency_witness :
  exists n,
    FormSession.slotCount (Medicine.frequency Munsorted) = Some n /\
    Z.of_nat (List.length (Medicine.times Munsorted)) = n /\
    ~ In "" (Medicine.times Munsorted).
Proof.
  apply (submitted_times_match_frequency
           "2025-01-01"
           [FormSession.SetName "U"; FormSession.SetDosage "10mg";
            FormSession.FrequencyChange "once-daily";
            FormSession.FrequencyChange "twice-daily";
            FormSession.TimeChange 0 "20:00";
            FormSession.TimeChange 1 "08:00"]
           formUnsorted "7" Munsorted).
  - repeat constructor; simpl; tauto.
  - reflexivity.
  - reflexivity.
Defined.

(** X20: choosing a frequency discards the times filled in before: every time
    field is empty afterwards and there is at least one, so unless the choice
    is as-needed the form cannot be submitted until the times are set
    again. *)
Theorem frequency_change_clears_times frequency form dateNow :
  (forall t,
     In t (MedicineForm.times
             (MedicineFormInput.handleFrequencyChange frequency form)) ->
     t = "") /\
  MedicineForm.times (MedicineFormInput.handleFrequencyChange frequency form)
  <> [] /\
  (frequency <> "as-needed" ->
   MedicineForm.handleSubmit
     dateNow (MedicineFormInput.handleFrequencyChange frequency form)
   = None).
Proof.
  assert (T : forall t,
             In t (MedicineForm.times
                     (MedicineFormInput.handleFrequencyChange frequency form)) ->
             t = "").
  { intro t. unfold MedicineFormInput.handleFrequencyChange.
    destruct (JS.find _ MedicineFormInput.frequencyOptions) as [opt|];
      [destruct (FrequencyOption.times opt >? 0)|];
      cbn [MedicineForm.times].
    - apply repeat_spec.
    - intros [<-|[]]. reflexivity.
    - intros [<-|[]]. reflexivity. }
  assert (N : MedicineForm.times
                (MedicineFormInput.handleFrequencyChange frequency form) <> []).
  { unfold MedicineFormInput.handleFrequencyChange.
    destruct (JS.find _ MedicineFormInput.frequencyOptions) as [opt|];
      [destruct (FrequencyOption.times opt >? 0) eqn:G|];
      cbn [MedicineForm.times]; try discriminate.
    rewrite Z.gtb_ltb in G. apply Z.ltb_lt in G.
    destruct (Z.to_nat (FrequencyOption.times opt)) eqn:E; [lia|].
    discriminate. }
  split; [exact T|]. split; [exact N|].
  intro A. apply (proj1 (submit_rejects dateNow _)).
  right. right.
  assert (F : MedicineForm.frequency
                (MedicineForm.formData
                   (MedicineFormInput.handleFrequencyChange frequency form))
              = frequency).
  { unfold MedicineFormInput.handleFrequencyChange.
    destruct (JS.find _ MedicineFormInput.frequencyOptions) as [opt|];
      [destruct (FrequencyOption.times opt >? 0)|]; reflexivity. }
  rewrite F.
  destruct (String.eqb frequency "") eqn:E.
  - left. apply String.eqb_eq. exact E.
  - right. split; [exact A|].
    destruct (MedicineForm.times
                (MedicineFormInput.handleFrequencyChange frequency form))
      as [|t rest] eqn:Ts; [contradiction|].
    left. apply T. left. reflexivity.
Qed.

Lemma frequency_change_clears_times_witness :
  (forall t,
     In t (MedicineForm.times
             (MedicineFormInput.handleFrequencyChange "once-daily" formUnsorted)) ->
     t = "") /\
  MedicineForm.times
    (MedicineFormInput.handleFrequencyChange "once-daily" formUnsorted) <> [] /\
  ("once-daily" <> "as-needed" ->
   MedicineForm.handleSubmit
     "7" (MedicineFormInput.handleFrequencyChange "once-daily" formUnsorted)
   = None).
Proof.
  exact (frequency_change_clears_times "once-daily" formUnsorted "7").
Defined.

(** X21: when the engine shows a notification for a slot that is still ahead
    of now, the headers show their upcoming badge and the list of
    [getUpcomingMedicines] begins with an entry at most five minutes away. *)
Theorem notified_slot_ahead_is_upcoming medicines now st n mm :
  In n (NotificationAlert.dueNotifications
          (fst (NotificationAlert.checkForDueMedicines medicines now st))) ->
  medicineMinutes (DueNotification.time n) = Some mm ->
  currentMinutes now < mm ->
  0 < Header.getUpcomingDoses medicines now /\
  exists e rest,
    getUpcomingMedicines medicines now = e :: rest /\
    Upcoming.minutesUntil e <= 5.
Proof.
  intros Hn Hmm Hlt. rewrite check_dueNotifications in Hn.
  apply in_newDueNotifications in Hn.
  destruct Hn as (m & time & Hm & (A & Ht & (mm' & Hmm' & W) & _) & ->).
  simpl in Hmm. rewrite Hmm in Hmm'. inversion Hmm'; subst mm'; clear Hmm'.
  assert (C : In (Upcoming.mk m time (mm - currentMinutes now))
                 (candidates medicines now)).
  { apply in_candidates. exists m, time, mm. repeat split; assumption. }
  split.
  - rewrite header_count_candidates. change 0 with (Z.of_nat 0).
    apply inj_lt, filter_nonempty.
    exists (Upcoming.mk m time (mm - currentMinutes now)).
    split; [exact C|]. unfold withinTwoHours. simpl. apply Z.leb_le. lia.
  - destruct (upcoming_head_least _ _ _ C) as (e & rest & E & L).
    exists e, rest. split; [exact E|]. simpl in L. lia.
Qed.

Lemma notified_slot_ahead_is_upcoming_witness :
  0 < Header.getUpcomingDoses [M1] (clock 7 57 0) /\
  exists e rest,
    getUpcomingMedicines [M1] (clock 7 57 0) = e :: rest /\
    Upcoming.minutesUntil e <= 5.
Proof.
  apply (notified_slot_ahead_is_upcoming
           [M1] (clock 7 57 0) NotificationAlert.initial notification0800 480).
  - vm_compute. left. reflexivity.
  - reflexivity.
  - reflexivity.
Defined.

(* ------------------------------------------------------------------ *)
(** ** A dose taken on the card *)

Lemma step_keeps_taken canVibrate s ev id time :
  keepsCard id ev ->
  In time (Session.takenTimes s id) ->
  In time (Session.takenTimes (Session.step canVibrate s ev) id).
Proof.
  intros K H.
  destruct ev as [m| |id'|id' time' at_|now|n at_|n| |]; cbn [keepsCard] in K.
  - destruct K.
  - destruct K.
  - simpl. unfold Session.setTakenTimes.
    destruct (String.eqb id id') eqn:E; [|exact H].
    apply String.eqb_eq in E. congruence.
  - unfold Session.step.
    destruct (JS.find _ (App.medicines (Session.app s))); [|exact H].
    cbn [Session.takenTimes]. unfold Session.setTakenTimes.
    destruct (String.eqb id id') eqn:E; [|exact H].
    apply String.eqb_eq in E. subst id'.
    apply card_take_adds. exact H.
  - rewrite tick_step. exact H.
  - rewrite alert_take_step. exact H.
  - exact H.
  - exact H.
  - exact H.
Qed.

(** X22: a slot taken with the card's button stays taken on that card while
    the card stays mounted: after any further take-actions, dismissals,
    evaluations of the engine and deletions of other medicines, the card
    shows the slot struck through, without badge, at every clock reading. *)
Theorem card_take_is_kept canVibrate s id time at_ evs now medicine :
  JS.find (fun m => String.eqb (Medicine.id m) id)
          (App.medicines (Session.app s)) = Some medicine ->
  Forall (keepsCard id) evs ->
  In time (Session.takenTimes
             (Session.run canVibrate
                (Session.step canVibrate s (Session.CardTake id time at_)) evs)
             id) /\
  report (MedicineCard.renderRow now
            (Session.takenTimes
               (Session.run canVibrate
                  (Session.step canVibrate s (Session.CardTake id time at_))
                  evs)
               id)
            time)
  = (time, true, false, false).
Proof.
  intros F K.
  assert (H : In time (Session.takenTimes
                         (Session.step canVibrate s
                                       (Session.CardTake id time at_)) id)).
  { unfold Session.step. rewrite F. cbn [Session.takenTimes].
    unfold Session.setTakenTimes. rewrite String.eqb_refl.
    apply (proj1 (card_take_adds time (Session.takenTimes s id))). }
  assert (G : In time (Session.takenTimes
                         (Session.run canVibrate
                            (Session.step canVibrate s
                                          (Session.CardTake id time at_))
                            evs) id)).
  { unfold Session.run.
    generalize dependent (Session.step canVibrate s
                                       (Session.CardTake id time at_)).
    induction K as [|ev rest Kev _ IH]; intros s0 H0; simpl; [exact H0|].
    apply IH. apply step_keeps_taken; assumption. }
  split; [exact G|]. apply taken_row. exact G.
Qed.

Lemma card_take_is_kept_witness :
  In "08:00"
     (Session.takenTimes
        (Session.run true
           (Session.step true
              (Session.step true Session.initial (Session.AddMedicine M1))
              (Session.CardTake "1" "08:00" (clock 8 1 0)))
           [Session.Tick (clock 8 3 0);
            Session.AlertDismiss notification0800;
            Session.DeleteMedicine "4"])
        "1") /\
  report (MedicineCard.renderRow (clock 8 30 0)
            (Session.takenTimes
               (Session.run true
                  (Session.step true
                     (Session.step true Session.initial (Session.AddMedicine M1))
                     (Session.CardTake "1" "08:00" (clock 8 1 0)))
                  [Session.Tick (clock 8 3 0);
                   Session.AlertDismiss notification0800;
                   Session.DeleteMedicine "4"])
               "1")
            "08:00")
  = ("08:00", true, false, false).
Proof.
  apply (card_take_is_kept true
           (Session.step true Session.initial (Session.AddMedicine M1))
           "1" "08:00" (clock 8 1 0)
           [Session.Tick (clock 8 3 0);
            Session.AlertDismiss notification0800;
            Session.DeleteMedicine "4"]
           (clock 8 30 0) M1).
  - reflexivity.
  - repeat constructor. simpl. discriminate.
Defined.

(** X23: the [HH:MM] text of a clock reading, which the as-needed card logs
    as the time of a "Take Now", is read back by the scheduling code's
    parsing as that reading's minute of day. *)
Theorem clock_text_reads_back now :
  0 <= Date.getHours now < 24 -> 0 <= Date.getMinutes now < 60 ->
  medicineMinutes (Date.toTimeString5 now) = Some (currentMinutes now) /\
  parseTime (Date.toTimeString5 now)
  = (Some (Date.getHours now), Some (Date.getMinutes now)).
Proof.
  intros Hh Hm.
  assert (table :
            forallb (fun h =>
              forallb (fun m =>
                match parseTime
                        (Date.toTimeString5
                           (Date.mk 0 0 1 (Z.of_nat h) (Z.of_nat m) 0 0 0 0 1)) with
                | (Some a, Some b) => (a =? Z.of_nat h) && (b =? Z.of_nat m)
                | _ => false
                end) (seq 0 60)) (seq 0 24) = true)
    by (vm_compute; reflexivity).
  rewrite forallb_forall in table.
  specialize (table (Z.to_nat (Date.getHours now))).
  rewrite forallb_forall in table.
  specialize (table ltac:(apply in_seq; lia) (Z.to_nat (Date.getMinutes now))
                    ltac:(apply in_seq; lia)).
  rewrite !Z2Nat.id in table by lia.
  assert (P : parseTime (Date.toTimeString5 now)
              = (Some (Date.getHours now), Some (Date.getMinutes now))).
  { unfold Date.toTimeString5 in *. cbn [Date.getHours Date.getMinutes] in table.
    destruct (parseTime _) as [[a|] [b|]]; try discriminate.
    apply andb_true_iff in table. destruct table as (Ea & Eb).
    apply Z.eqb_eq in Ea, Eb. congruence. }
  split; [|exact P].
  unfold medicineMinutes. rewrite P. reflexivity.
Qed.

Lemma clock_text_reads_back_witness :
  medicineMinutes (Date.toTimeString5 (clock 23 59 30))
  = Some (currentMinutes (clock 23 59 30)) /\
  parseTime (Date.toTimeString5 (clock 23 59 30))
  = (Some (Date.getHours (clock 23 59 30)),
     Some (Date.getMinutes (clock 23 59 30))).
Proof.
  apply (clock_text_reads_back (clock 23 59 30)); simpl; lia.
Defined.

(* ------------------------------------------------------------------ *)
(** ** Date texts *)

Section DateText.

Lemma digit_char_inj a b :
  0 <= a < 10 -> 0 <= b < 10 -> JS.digit_char a = JS.digit_char b -> a = b.
Proof.
  intros Ha Hb E. unfold JS.digit_char in E.
  rewrite !Z.mod_small in E by lia.
  apply (f_equal N_of_ascii) in E.
  rewrite N_ascii_embedding in E by lia.
  rewrite N_ascii_embedding in E by lia.
  apply (f_equal Z.of_N) in E. rewrite !Z2N.id in E by lia. lia.
Qed.

Lemma digit_char_mod n : JS.digit_char n = JS.digit_char (n mod 10).
Proof.
  unfold JS.digit_char. rewrite Z.mod_mod by lia. reflexivity.
Qed.

Lemma tens_units_inj a b :
  0 <= a < 100 -> 0 <= b < 100 ->
  JS.digit_char (a / 10) = JS.digit_char (b / 10) ->
  JS.digit_char a = JS.digit_char b -> a = b.
Proof.
  intros Ha Hb E1 E2.
  assert (B1 : 0 <= a / 10 < 10)
    by (split; [apply Z.div_pos; lia | apply Z.div_lt_upper_bound; lia]).
  assert (B2 : 0 <= b / 10 < 10)
    by (split; [apply Z.div_pos; lia | apply Z.div_lt_upper_bound; lia]).
  apply digit_char_inj in E1; [|assumption|assumption].
  rewrite (digit_char_mod a), (digit_char_mod b) in E2.
  apply digit_char_inj in E2;
    [|apply Z.mod_pos_bound; lia|apply Z.mod_pos_bound; lia].
  rewrite (Z.div_mod a 10), (Z.div_mod b 10) by lia. lia.
Qed.

End DateText.

(** X24: the date texts of two clock readings, which the log stores and
    today's log compares, are equal exactly when the readings have the same
    UTC year, month and day. *)
Theorem same_date_text_iff_same_day d1 d2 :
  0 <= Date.getUTCFullYear d1 < 10000 -> 0 <= Date.getUTCFullYear d2 < 10000 ->
  0 <= Date.getUTCMonth d1 < 12 -> 0 <= Date.getUTCMonth d2 < 12 ->
  1 <= Date.getUTCDate d1 <= 31 -> 1 <= Date.getUTCDate d2 <= 31 ->
  (Date.toISODate d1 = Date.toISODate d2 <->
   Date.getUTCFullYear d1 = Date.getUTCFullYear d2 /\
   Date.getUTCMonth d1 = Date.getUTCMonth d2 /\
   Date.getUTCDate d1 = Date.getUTCDate d2).
Proof.
  intros Y1 Y2 M1' M2' D1 D2. split.
  - unfold Date.toISODate, JS.pad4, JS.pad2.
    cbn [String.append]. intro E.
    inversion E as [[Ea Eb Ec Ed Ee Ef Eg Eh]]. clear E.
    assert (Hhi : Date.getUTCFullYear d1 / 100 = Date.getUTCFullYear d2 / 100).
    { apply tens_units_inj; try assumption.
      - split; [apply Z.div_pos; lia | apply Z.div_lt_upper_bound; lia].
      - split; [apply Z.div_pos; lia | apply Z.div_lt_upper_bound; lia]. }
    assert (Hlo : Date.getUTCFullYear d1 mod 100
                  = Date.getUTCFullYear d2 mod 100).
    { apply tens_units_inj; try assumption; apply Z.mod_pos_bound; lia. }
    assert (Hm : Date.getUTCMonth d1 + 1 = Date.getUTCMonth d2 + 1)
      by (apply tens_units_inj; try assumption; lia).
    assert (Hd : Date.getUTCDate d1 = Date.getUTCDate d2)
      by (apply tens_units_inj; try assumption; lia).
    split; [|split; [lia | exact Hd]].
    rewrite (Z.div_mod (Date.getUTCFullYear d1) 100),
            (Z.div_mod (Date.getUTCFullYear d2) 100) by lia.
    lia.
  - unfold Date.toISODate. intros (-> & -> & ->). reflexivity.
Qed.

Lemma same_date_text_iff_same_day_witness :
  Date.toISODate (clock 8 5 0) = Date.toISODate (clock 23 59 0) <->
  Date.getUTCFullYear (clock 8 5 0) = Date.getUTCFullYear (clock 23 59 0) /\
  Date.getUTCMonth (clock 8 5 0) = Date.getUTCMonth (clock 23 59 0) /\
  Date.getUTCDate (clock 8 5 0) = Date.getUTCDate (clock 23 59 0).
Proof.
  apply (same_date_text_iff_same_day (clock 8 5 0) (clock 23 59 0));
    simpl; lia.
Defined.
